(** * MSLyncURLandUpdateInfoProvider: the processor and its specification

    A shallow embedding of [MSLync/MSLyncURLandUpdateInfoProvider.py] and the
    properties its specification states about it.

    Conventions of the embedding.
    - A Python [str] is a [string]; its characters are the code points below
      256.  Python 3 semantics are followed for [int], [hex] and [str]
      methods.
    - A call that may raise returns a [result]: [Return v] or [Raise e].
    - A metadata item is a record carrying the fixed fields of the feed,
      with the types the feed gives them (a date is its time stamp, an
      integer); the fields the code reads with [dict.get] are optional.
    - [self.env] is a record of the variables the processor reads and
      writes; the processor's body threads a [state] (environment and
      emitted notices) and keeps every write made before an exception. *)

From Stdlib Require Import ZArith String Ascii List Bool Lia Permutation Sorted.
From Stdlib Require Import DecimalString HexadecimalString.
From Stdlib Require OrdersEx.
From stdpp Require Import base option gmap strings list.

Local Open Scope string_scope.
Local Open Scope Z_scope.

(** ** Exceptions and results *)

(** The text of an exception.  [MsgList text l] is [text] followed by
    [str(l)] for a list [l] of strings, which is kept as data. *)
Inductive message : Type :=
| Msg (text : string)
| MsgList (text : string) (l : list string).

Inductive exception : Type :=
| ProcessorError (msg : message)
| UnboundLocalError (name : string)
| KeyError (key : string)
| IndexError (msg : string)
| ParseError (msg : string).

Inductive result (A : Type) : Type :=
| Return (a : A)
| Raise (e : exception).

Arguments Return {A} a.
Arguments Raise {A} e.

#[global] Instance result_ret : MRet result := @Return.
#[global] Instance result_bind : MBind result := fun A B f r =>
  match r with
  | Return a => f a
  | Raise e => Raise e
  end.

Definition is_processor_error {A : Type} (r : result A) : bool :=
  match r with
  | Raise (ProcessorError _) => true
  | _ => false
  end.

Definition returned {A : Type} (r : result A) : option A :=
  match r with
  | Return a => Some a
  | Raise _ => None
  end.

(** ** Python builtins used by the processor *)

Module Py.

(** Characters as code points. *)
Definition ord (c : ascii) : Z := Z.of_N (N_of_ascii c).

(** Whitespace skipped by [int()]: TAB, LF, VT, FF, CR, space, and the two
    non-ASCII spaces below 256 (NEL and NBSP). *)
Definition isspace (c : ascii) : bool :=
  let n := ord c in
  ((9 <=? n) && (n <=? 13)) || (n =? 32) || (n =? 133) || (n =? 160).

(** Value of a character as a digit in bases up to 36; 37 when it is none. *)
Definition digit_value (c : ascii) : Z :=
  let n := ord c in
  if (48 <=? n) && (n <=? 57) then n - 48
  else if (97 <=? n) && (n <=? 122) then n - 97 + 10
  else if (65 <=? n) && (n <=? 90) then n - 65 + 10
  else 37.

Fixpoint lstrip (s : string) : string :=
  match s with
  | String c s' => if isspace c then lstrip s' else s
  | EmptyString => s
  end.

Fixpoint all_space (s : string) : bool :=
  match s with
  | String c s' => isspace c && all_space s'
  | EmptyString => true
  end.

(** Digits of [int()], read left to right: single underscores are accepted
    between digits, and only whitespace may follow the last digit. *)
Fixpoint int_digits (base acc : Z) (after_underscore : bool) (s : string)
  : option Z :=
  match s with
  | EmptyString => if after_underscore then None else Some acc
  | String c s' =>
      if Ascii.eqb c "_" then
        if after_underscore then None else int_digits base acc true s'
      else if digit_value c <? base then
        int_digits base (acc * base + digit_value c) false s'
      else if after_underscore then None
      else if all_space s then Some acc else None
  end.

Definition int_unsigned (base : Z) (s : string) : option Z :=
  let s :=
    match s with
    | String "0" (String x s') =>
        if (base =? 16) && (Ascii.eqb x "x" || Ascii.eqb x "X") then
          match s' with
          | String "_" s'' => s''
          | _ => s'
          end
        else s
    | _ => s
    end in
  match s with
  | String c _ => if digit_value c <? base then int_digits base 0 false s else None
  | EmptyString => None
  end.

(** [int(s, base)] for base 10 and base 16; [None] stands for [ValueError]. *)
Definition int (base : Z) (s : string) : option Z :=
  match lstrip s with
  | String "+" s' => int_unsigned base s'
  | String "-" s' => Z.opp <$> int_unsigned base s'
  | s' => int_unsigned base s'
  end.

(** [str(z)] for an integer. *)
Definition str_of_int (z : Z) : string :=
  DecimalString.NilZero.string_of_int (Z.to_int z).

(** The lowercase hexadecimal digits of a natural number. *)
Definition hex_digits (n : N) : string :=
  HexadecimalString.NilZero.string_of_uint (N.to_hex_uint n).

(** [hex(z)] *)
Definition hex (z : Z) : string :=
  if z <? 0 then "-0x" +:+ hex_digits (Z.to_N (- z))
  else "0x" +:+ hex_digits (Z.to_N z).

(** [s[i:]] *)
Fixpoint drop (i : nat) (s : string) : string :=
  match i, s with
  | S i', String _ s' => drop i' s'
  | _, _ => s
  end.

(** [s[i:j]] for [0 <= i <= j]. *)
Definition slice (i j : nat) (s : string) : string := substring i (j - i) s.

(** [s[i]] as a one-character string, when [i] is in range. *)
Definition item (i : nat) (s : string) : string := substring i 1 s.

(** [s.startswith(p)] *)
Definition startswith (p s : string) : bool := String.prefix p s.

(** [s.find(sub)]: the lowest index where [sub] occurs in [s]. *)
Fixpoint find_from (sub s : string) (i : nat) : option nat :=
  if String.prefix sub s then Some i
  else match s with
       | String _ s' => find_from sub s' (S i)
       | EmptyString => None
       end.

Definition find (sub s : string) : option nat := find_from sub s 0.

(** [sub in s] *)
Definition contains (sub s : string) : bool :=
  match find sub s with
  | Some _ => true
  | None => false
  end.

(** [s.replace(old, new)] for a non-empty [old]: occurrences are replaced
    left to right and do not overlap.  [skip] counts the characters of the
    current occurrence still to be consumed. *)
Fixpoint replace_from (old new : string) (skip : nat) (s : string) : string :=
  match s with
  | EmptyString => EmptyString
  | String c s' =>
      match skip with
      | S k => replace_from old new k s'
      | O =>
          if String.prefix old s
          then new +:+ replace_from old new (String.length old - 1) s'
          else String c (replace_from old new 0 s')
      end
  end.

(** With an empty [old], [new] is inserted around every character. *)
Fixpoint intersperse (new s : string) : string :=
  match s with
  | EmptyString => new
  | String c s' => new +:+ String c (intersperse new s')
  end.

Definition replace (old new s : string) : string :=
  match old with
  | EmptyString => intersperse new s
  | _ => replace_from old new 0 s
  end.

(** [s.split(sep)] for a one-character separator. *)
Fixpoint split (sep : ascii) (s : string) : list string :=
  match s with
  | EmptyString => [EmptyString]
  | String c s' =>
      if Ascii.eqb c sep then EmptyString :: split sep s'
      else match split sep s' with
           | piece :: rest => String c piece :: rest
           | [] => [String c EmptyString]
           end
  end.

(** [sep.join(l)] *)
Fixpoint join (sep : string) (l : list string) : string :=
  match l with
  | [] => EmptyString
  | [x] => x
  | x :: rest => x +:+ sep +:+ join sep rest
  end.

(** [sorted(l, key=key)], with [le a b] deciding [not (b < a)] on keys.
    The sort is stable: an element is placed before the elements of equal
    key that followed it in [l]. *)
Section Sorted.
Context {A K : Type} (le : K -> K -> bool) (key : A -> K).

Fixpoint insert_sorted (x : A) (l : list A) : list A :=
  match l with
  | [] => [x]
  | y :: l' =>
      if le (key x) (key y) then x :: y :: l'
      else y :: insert_sorted x l'
  end.

Fixpoint sorted (l : list A) : list A :=
  match l with
  | [] => []
  | x :: l' => insert_sorted x (sorted l')
  end.

(** [x] may precede [y] in a list sorted by [key]. *)
Definition key_le (x y : A) : Prop := le (key x) (key y) = true.

End Sorted.

End Py.

(** ** Module constants *)

Definition CULTURE_CODE : string := "0409".

(** [BASE_URL % culture_code] *)
Definition BASE_URL (culture_code : string) : string :=
  "https://officecdn.microsoft.com/pr/C1297A47-86C4-4C1F-97FA-950631F94777/OfficeMac/"
  +:+ culture_code +:+ "UCCP14.xml".

Definition MUNKI_UPDATE_NAME : string := "Lync_Installer".

(** ** Data model *)

(** A value of the [Min OS] and [Max OS] fields. *)
Inductive os_value : Type :=
| OSInt (z : Z)
| OSStr (s : string)
| OSOther.

(** [str(value)], as used in the error message, which is built for
    integers and strings only. *)
Definition str_of_os_value (value : os_value) : string :=
  match value with
  | OSInt z => Py.str_of_int z
  | OSStr s => s
  | OSOther => ""
  end.

(** ** valueToOSVersionString *)

(** The assignments to [version_str] before the [try]; [None] when no branch
    assigns it and the local stays unbound. *)
Definition version_str_of (value : os_value) : option string :=
  match value with
  | OSInt z => Some (Py.drop 2 (Py.hex z))
  | OSStr s => if Py.startswith "0x" s then Some (Py.drop 2 s) else None
  | OSOther => None
  end.

(** The body of the [try]; [None] when a [ValueError] is raised. *)
Definition parse_version_str (version_str : string) : option (Z * Z * Z) :=
  let len := String.length version_str in
  let major := 0 in
  let minor := 0 in
  let patch := 0 in
  major ← (if (len =? 1)%nat then Py.int 10 (Py.item 0 version_str) else Some major);
  major ← (if (1 <? len)%nat then Py.int 10 (Py.slice 0 2 version_str) else Some major);
  minor ← (if (2 <? len)%nat then Py.int 16 (Py.item 2 version_str) else Some minor);
  patch ← (if (3 <? len)%nat then Py.int 16 (Py.item 3 version_str) else Some patch);
  Some (major, minor, patch).

(** ["%s.%s.%s" % (major, minor, patch)] *)
Definition format_version (v : Z * Z * Z) : string :=
  let '(major, minor, patch) := v in
  Py.str_of_int major +:+ "." +:+ Py.str_of_int minor +:+ "." +:+ Py.str_of_int patch.

Definition valueToOSVersionString (value : os_value) : result string :=
  match version_str_of value with
  | None => Raise (UnboundLocalError "version_str")
  | Some version_str =>
      match parse_version_str version_str with
      | Some v => Return (format_version v)
      | None =>
          Raise (ProcessorError
                   (Msg ("Unexpected value in version: " +:+ str_of_os_value value)))
      end
  end.

(** ** distutils.version.LooseVersion

    The version key of the standard library, with the ordering of its
    component lists: numbers compare numerically, strings by code points,
    and a proper prefix sorts first.  Between a number and a string the
    rule of Python 2 is taken, where the number sorts first; Python 3
    raises a TypeError there.  The processor below takes the key and its
    order as parameters, and this module is the instance used in the
    worked examples. *)

Module Distutils.

Inductive component : Type :=
| CInt (n : Z)
| CStr (s : string).

Inductive char_class : Type := Digit | Lower | Dot | Other.

Definition classify (c : ascii) : char_class :=
  let n := Py.ord c in
  if (48 <=? n) && (n <=? 57) then Digit
  else if (97 <=? n) && (n <=? 122) then Lower
  else if n =? 46 then Dot
  else Other.

Definition same_run (k k' : char_class) : bool :=
  match k, k' with
  | Digit, Digit | Lower, Lower | Other, Other => true
  | _, _ => false
  end.

(** The pieces of [component_re.split]: maximal runs of digits, of
    lowercase letters and of other characters, and the single dots. *)
Fixpoint runs (s : string) : list (char_class * string) :=
  match s with
  | EmptyString => []
  | String c s' =>
      let k := classify c in
      match runs s' with
      | (k', r) :: rest =>
          if same_run k k' then (k, String c r) :: rest
          else (k, String c EmptyString) :: (k', r) :: rest
      | [] => [(k, String c EmptyString)]
      end
  end.

Definition component_of (piece : char_class * string) : list component :=
  match piece with
  | (Dot, _) => []
  | (_, r) =>
      match Py.int 10 r with
      | Some n => [CInt n]
      | None => [CStr r]
      end
  end.

Definition LooseVersion (vstring : string) : list component :=
  flat_map component_of (runs vstring).

Definition compare_component (a b : component) : comparison :=
  match a, b with
  | CInt n, CInt m => Z.compare n m
  | CInt _, CStr _ => Lt
  | CStr _, CInt _ => Gt
  | CStr s, CStr t => OrdersEx.String_as_OT.compare s t
  end.

Fixpoint compare (v w : list component) : comparison :=
  match v, w with
  | [], [] => Eq
  | [], _ :: _ => Lt
  | _ :: _, [] => Gt
  | a :: v', b :: w' =>
      match compare_component a b with
      | Eq => compare v' w'
      | c => c
      end
  end.

(** [not (w < v)] *)
Definition le (v w : list component) : bool :=
  match compare v w with
  | Gt => false
  | _ => true
  end.

End Distutils.

(** ** Metadata items *)

Record Trigger : Type := mkTrigger {
  File : option string;
  Versions : option (list string)
}.

Record Item : Type := mkItem {
  Title : string;
  Date : Z;
  Location : string;
  Payload : string;
  Short_Description : string;
  Max_OS : os_value;
  Min_OS : os_value;
  Trigger_Condition : option (list string);
  Triggers : option (gmap string Trigger)
}.

(** ** The environment of the processor and its outputs *)

Inductive pkginfo_value : Type :=
| PkgStr (s : string)
| PkgInstalls (l : list (gmap string string))
| PkgRequires (l : list string).

Record Env : Type := mkEnv {
  base_url : option string;
  culture_code : option string;
  version : option string;
  munki_update_name : option string;
  url : option string;
  pkg_name : option string;
  additional_pkginfo : option (gmap string pkginfo_value);
  display_name : option string
}.

Definition set_url (v : string) (env : Env) : Env :=
  mkEnv (base_url env) (culture_code env) (version env) (munki_update_name env)
        (Some v) (pkg_name env) (additional_pkginfo env) (display_name env).

Definition set_pkg_name (v : string) (env : Env) : Env :=
  mkEnv (base_url env) (culture_code env) (version env) (munki_update_name env)
        (url env) (Some v) (additional_pkginfo env) (display_name env).

Definition set_additional_pkginfo (v : gmap string pkginfo_value) (env : Env) : Env :=
  mkEnv (base_url env) (culture_code env) (version env) (munki_update_name env)
        (url env) (pkg_name env) (Some v) (display_name env).

Definition set_display_name (v : string) (env : Env) : Env :=
  mkEnv (base_url env) (culture_code env) (version env) (munki_update_name env)
        (url env) (pkg_name env) (additional_pkginfo env) (Some v).

(** A line passed to [self.output]; the last one carries [str(pkginfo)]. *)
Inductive notice : Type :=
| Notice (text : string)
| NoticePkginfo (text : string) (pkginfo : gmap string pkginfo_value).

Record state : Type := mkState {
  env : Env;
  notices : list notice
}.

(** Computations of the processor: they read and write the state and may
    raise; the state reached when an exception is raised is kept. *)
Definition M (A : Type) : Type := state -> state * result A.

#[global] Instance M_ret : MRet M := fun A a st => (st, Return a).
#[global] Instance M_bind : MBind M := fun A B f m st =>
  match m st with
  | (st', Return a) => f a st'
  | (st', Raise e) => (st', Raise e)
  end.

Definition lift {A : Type} (r : result A) : M A := fun st => (st, r).

Definition get_env : M Env := fun st => (st, Return (env st)).

Definition modify_env (f : Env -> Env) : M unit :=
  fun st => (mkState (f (env st)) (notices st), Return tt).

Definition output (n : notice) : M unit :=
  fun st => (mkState (env st) (notices st ++ [n]), Return tt).

(** ** sanityCheckExpectedTriggers *)

(** [item.get("Triggers", {})] *)
Definition triggers_of (item : Item) : gmap string Trigger :=
  default ∅ (Triggers item).

Definition sanityCheckExpectedTriggers (item : Item) : result unit :=
  if negb (bool_decide (Trigger_Condition item = Some ["and"; "Lync"])) then
    match Trigger_Condition item with
    | Some cond =>
        Raise (ProcessorError
                 (MsgList ("Unexpected Trigger Condition in item "
                           +:+ Title item +:+ ": ") cond))
    | None => Raise (KeyError "Trigger Condition")
    end
  else if negb (bool_decide (is_Some (triggers_of item !! "Lync"))) then
    Raise (ProcessorError
             (Msg ("Missing expected MCP Trigger in item " +:+ Title item)))
  else Return tt.

(** ** getVersion *)

Definition TITLE_START : string := "Lync ".
Definition TITLE_END : string := " Update".

Definition getVersion (item : Item) : string :=
  let title := Title item in
  let version_str :=
    Py.replace TITLE_END "" (Py.replace TITLE_START "" title) in
  version_str.

(** ** getInstallsItems *)

Definition installs_item (item : Item) : gmap string string :=
  <["CFBundleShortVersionString" := getVersion item]>
  (<["CFBundleVersion" := getVersion item]>
  (<["path" := "/Applications/Lync/Contents/Info.plist"]>
  (<["type" := "bundle"]>
  (<["version_comparison_key" := "CFBundleShortVersionString"]> ∅)))).

Definition getInstallsItems (item : Item)
  : result (option (list (gmap string string))) :=
  _ ← sanityCheckExpectedTriggers item;
  let triggers := triggers_of item in
  let paths := (fun kv : string * Trigger => File kv.2) <$> map_to_list triggers in
  if bool_decide (Some "Contents/Info.plist" ∈ paths) then
    Return (Some [installs_item item])
  else Return None.

(** ** The external collaborators and the functions that use them *)

Section Processor.

(** [distutils.version.LooseVersion] and the order of its values.  Both are
    taken on the version lists whose comparisons return: an empty version
    string, which has no components to compare, and under Python 3 a number
    compared with a string make [sorted] raise, and such lists are not
    covered. *)
Context {K : Type} (LooseVersion : string -> K) (lv_le : K -> K -> bool).

(** [self.download]: the body of the response, or the text of the exception
    it raised.  [readPlistFromString] parses the body into the items. *)
Context (download : string -> list (string * string) -> string + string).
Context (readPlistFromString : string -> result (list Item)).

(** *** getRequiresFromUpdateItem *)

(** [item.get("Triggers", {}).get("Lync", {}).get("Versions", [])] *)
Definition mcp_versions_of (item : Item) : list string :=
  default [] (Versions (default (mkTrigger None None)
                                (triggers_of item !! "Lync"))).

Definition getRequiresFromUpdateItem (env : Env) (item : Item)
  : result (option (list string)) :=
  _ ← sanityCheckExpectedTriggers item;
  let munki_update_name := default MUNKI_UPDATE_NAME (munki_update_name env) in
  let mcp_versions := mcp_versions_of item in
  match mcp_versions with
  | [] => Return None
  | _ :: _ =>
      let mcp_versions := Py.sorted lv_le LooseVersion mcp_versions in
      match mcp_versions with
      | [] => Raise (IndexError "list index out of range")
      | first :: _ =>
          if String.eqb first "14.0.0" then Return None
          else Return (Some [munki_update_name +:+ "-" +:+ first])
      end
  end.

(** *** Selection of the item (first part of get_lyncInstaller_info) *)

(** [base_url] as computed from the environment. *)
Definition feed_url (env : Env) : string :=
  match base_url env with
  | Some base_url => base_url
  | None => BASE_URL (default CULTURE_CODE (culture_code env))
  end.

(** [version_str] as read from the environment. *)
Definition version_selector (env : Env) : string :=
  match version env with
  | Some version_str =>
      if String.eqb version_str "" then "latest" else version_str
  | None => "latest"
  end.

(** [sub] occurs in [s]: the meaning of [sub in s] for strings. *)
Definition is_substring (sub s : string) : Prop :=
  exists a b, s = a +:+ sub +:+ b.

(** The entries whose title has the padded version as a substring. *)
Definition matched_items (metadata : list Item) (version_str : string)
  : list Item :=
  let padded_version_str := " " +:+ version_str +:+ " " in
  List.filter (fun item => Py.contains padded_version_str (Title item)) metadata.

Definition select_item (metadata : list Item) (version_str : string)
  : result Item :=
  if String.eqb version_str "latest" then
    let sorted_metadata := Py.sorted Z.leb Date metadata in
    match last sorted_metadata with
    | Some item => Return item
    | None => Raise (IndexError "list index out of range")
    end
  else
    let matched_items := matched_items metadata version_str in
    if negb (length matched_items =? 1)%nat then
      Raise (ProcessorError
               (Msg ("Could not find version " +:+ version_str
                     +:+ " in update metadata. Updates that are available: "
                     +:+ Py.join ", "
                           (List.map (fun item => "'" +:+ Title item +:+ "'")
                                     metadata))))
    else
      match matched_items with
      | item :: _ => Return item
      | [] => Raise (IndexError "list index out of range")
      end.

(** *** get_lyncInstaller_info *)

Definition headers : list (string * string) :=
  [("User-Agent",
    "Microsoft%20AutoUpdate/3.0.2 CFNetwork/720.2.4 Darwin/14.1.0 (x86_64)")].

(** The part of the body that follows the selection of [item]. *)
Definition publish_item (item : Item) : M unit :=
  modify_env (set_url (Location item));;
  modify_env (set_pkg_name (Payload item));;
  env1 ← get_env;
  match url env1 with
  | Some url => output (Notice ("Found URL " +:+ url))
  | None => lift (Raise (KeyError "url"))
  end;;
  output (Notice ("Got update: '" +:+ Title item +:+ "'"));;
  let pkginfo : gmap string pkginfo_value := ∅ in
  let pkginfo :=
    <["description" := PkgStr ("<html>" +:+ Short_Description item +:+ "</html>")]>
      pkginfo in
  let pkginfo := <["display_name" := PkgStr (Title item)]> pkginfo in
  max_os ← lift (valueToOSVersionString (Max_OS item));
  min_os ← lift (valueToOSVersionString (Min_OS item));
  let pkginfo :=
    if negb (String.eqb max_os "0.0.0")
    then <["maximum_os_version" := PkgStr max_os]> pkginfo else pkginfo in
  let pkginfo :=
    if negb (String.eqb min_os "0.0.0")
    then <["minimum_os_version" := PkgStr min_os]> pkginfo else pkginfo in
  installs_items ← lift (getInstallsItems item);
  let pkginfo :=
    match installs_items with
    | Some ((_ :: _) as l) => <["installs" := PkgInstalls l]> pkginfo
    | _ => pkginfo
    end in
  env2 ← get_env;
  requires ← lift (getRequiresFromUpdateItem env2 item);
  pkginfo ←
    match requires with
    | Some ((first :: _) as l) =>
        let pkginfo := <["requires" := PkgRequires l]> pkginfo in
        match Py.split "-" first !! 1%nat with
        | Some v =>
            output (Notice ("Update requires previous update version " +:+ v));;
            mret pkginfo
        | None => lift (Raise (IndexError "list index out of range"))
        end
    | _ => mret pkginfo
    end;
  env3 ← get_env;
  let pkginfo :=
    <["name" := PkgStr (default MUNKI_UPDATE_NAME (munki_update_name env3))]>
      pkginfo in
  modify_env (set_additional_pkginfo pkginfo);;
  match pkginfo !! "display_name" with
  | Some (PkgStr name) => modify_env (set_display_name name)
  | _ => lift (Raise (KeyError "display_name"))
  end;;
  env4 ← get_env;
  match additional_pkginfo env4 with
  | Some pkginfo => output (NoticePkginfo "Additional pkginfo: " pkginfo)
  | None => lift (Raise (KeyError "additional_pkginfo"))
  end.

Definition get_lyncInstaller_info : M unit :=
  env0 ← get_env;
  let base_url := feed_url env0 in
  let version_str := version_selector env0 in
  data ← lift (match download base_url headers with
               | inr data => Return data
               | inl err =>
                   Raise (ProcessorError
                            (Msg ("Can't download " +:+ base_url +:+ ": " +:+ err)))
               end);
  metadata ← lift (readPlistFromString data);
  item ← lift (select_item metadata version_str);
  publish_item item.

Definition main : M unit := get_lyncInstaller_info.

End Processor.

(** ** The digit-position mapping of the specification

    Written from the specification's sentence on the hex digit sequence [s]:
    the major number is the decimal integer value ([int] in base 10) of
    [s[0]] or of [s[0:2]], the minor and patch numbers are the values of the
    hex digits at positions 2 and 3, and a missing position counts as 0. *)

Definition hex_digit_value (c : ascii) : option Z :=
  let v := Py.digit_value c in
  if v <? 16 then Some v else None.

Definition spec_major (s : string) : option Z :=
  match String.length s with
  | O => Some 0
  | S O => Py.int 10 (substring 0 1 s)
  | _ => Py.int 10 (substring 0 2 s)
  end.

Definition spec_digit_at (i : nat) (s : string) : option Z :=
  match String.get i s with
  | Some c => hex_digit_value c
  | None => Some 0
  end.

Definition spec_decode (value : os_value) (s : string) : result string :=
  match spec_major s, spec_digit_at 2 s, spec_digit_at 3 s with
  | Some major, Some minor, Some patch =>
      Return (Py.str_of_int major +:+ "." +:+ Py.str_of_int minor
              +:+ "." +:+ Py.str_of_int patch)
  | _, _, _ =>
      Raise (ProcessorError
               (Msg ("Unexpected value in version: " +:+ str_of_os_value value)))
  end.

(** The value of a string made of decimal digits only. *)
Fixpoint decimal_digits_value (acc : Z) (s : string) : option Z :=
  match s with
  | EmptyString => Some acc
  | String c s' =>
      let v := Py.digit_value c in
      if v <? 10 then decimal_digits_value (acc * 10 + v) s' else None
  end.

(** ** The leading prefix and trailing suffix of a title, removed once *)

Definition remove_prefix (p s : string) : string :=
  if String.prefix p s then Py.drop (String.length p) s else s.

Definition remove_suffix (p s : string) : string :=
  let n := (String.length s - String.length p)%nat in
  if String.eqb (Py.drop n s) p then substring 0 n s else s.

Definition spec_version_of_title (title : string) : string :=
  remove_suffix " Update" (remove_prefix "Lync " title).

(** Strings made of decimal digits and dots, as "14.4.3". *)
Fixpoint is_dotted_number (s : string) : bool :=
  match s with
  | EmptyString => true
  | String c s' =>
      ((Py.digit_value c <? 10) || Ascii.eqb c ".") && is_dotted_number s'
  end.

(** ** A sample feed, for the worked instances below *)

Definition sample_item (title : string) (date : Z) (max_os min_os : os_value)
    (triggers : option (gmap string Trigger)) : Item :=
  mkItem title date ("https://download.example/" +:+ title) "Lync Installer.pkg"
         "An update" max_os min_os (Some ["and"; "Lync"]) triggers.

Definition sample_triggers (versions : list string) : option (gmap string Trigger) :=
  Some {[ "Lync" := mkTrigger (Some "Contents/Info.plist") (Some versions) ]}.

Definition sample_1442 : Item :=
  sample_item "Lync 14.4.2 Update" 20160101 (OSInt 0) (OSStr "0x1058")
              (sample_triggers ["14.0.10"; "14.0.2"]).

Definition sample_1443 : Item :=
  sample_item "Lync 14.4.3 Update" 20170301 (OSInt 0) (OSInt 4184)
              (sample_triggers ["14.0.1"; "14.0.0"]).

Definition sample_1443_again : Item :=
  sample_item "Lync 14.4.3 Update (reissued)" 20170301 (OSInt 0) (OSInt 4184)
              (sample_triggers ["14.0.0"]).

Definition sample_bad_os : Item :=
  sample_item "Lync 14.4.4 Update" 20180101 (OSStr "0xzz") (OSInt 4184)
              (sample_triggers ["14.0.0"]).

Definition sample_untriggered : Item :=
  sample_item "Lync 14.4.5 Update" 20190101 (OSInt 0) (OSInt 0) None.

Definition sample_env : Env :=
  mkEnv None None None None None None None None.

Definition sample_download (feed : string)
  : string -> list (string * string) -> string + string :=
  fun _ _ => inr feed.

Definition sample_readPlistFromString (metadata : list Item)
  : string -> result (list Item) :=
  fun _ => Return metadata.

(** The integers [lo], [lo + 1], ..., [lo + n - 1]. *)
Definition Z_range (lo : Z) (n : nat) : list Z :=
  List.map (fun i => lo + Z.of_nat i) (seq 0 n).

(** The encoding of an OS version that the comment of
    [valueToOSVersionString] describes (4184 = 0x1058 = 10.5.8): the
    hexadecimal digits of the integer are the two decimal digits of the
    major number, then the minor and the patch numbers. *)
Definition encode_os_version (major minor patch : Z) : Z :=
  ((major / 10) * 16 + major mod 10) * 256 + minor * 16 + patch.

Definition sample_1442_reordered : Item :=
  sample_item "Lync 14.4.2 Update" 20160101 (OSInt 0) (OSStr "0x1058")
              (sample_triggers ["14.0.2"; "14.0.10"]).

(* ================================================================== *)
(** * Properties *)

(** ** VersionCodec: valueToOSVersionString *)

Lemma int16_char (c : ascii) :
  Py.int 16 (String c EmptyString) = hex_digit_value c.
Proof. destruct c as [[] [] [] [] [] [] [] []]; reflexivity. Qed.

Lemma substring_0_0 (s : string) : substring 0 0 s = EmptyString.
Proof. destruct s; reflexivity. Qed.

Lemma parse_version_str_spec (s : string) :
  parse_version_str s =
  major ← spec_major s; minor ← spec_digit_at 2 s; patch ← spec_digit_at 3 s;
  Some (major, minor, patch).
Proof.
  unfold parse_version_str, spec_major, spec_digit_at, Py.item, Py.slice.
  destruct s as [|a [|b [|c [|d s]]]]; cbn [String.length Nat.eqb Nat.ltb Nat.leb
    substring String.get Nat.sub]; rewrite ?substring_0_0, ?int16_char;
    reflexivity.
Qed.

Lemma valueToOSVersionString_normalized (value : os_value) (s : string) :
  version_str_of value = Some s ->
  valueToOSVersionString value = spec_decode value s.
Proof.
  intros Hs. unfold valueToOSVersionString, spec_decode. rewrite Hs.
  rewrite parse_version_str_spec.
  destruct (spec_major s) as [major|]; [|reflexivity].
  destruct (spec_digit_at 2 s) as [minor|]; [|reflexivity].
  destruct (spec_digit_at 3 s) as [patch|]; reflexivity.
Qed.

Lemma prefix_empty (s : string) : String.prefix EmptyString s = true.
Proof. destruct s; reflexivity. Qed.

Lemma version_str_of_prefixed (digits : string) :
  version_str_of (OSStr ("0x" +:+ digits)) = Some digits.
Proof.
  change ("0x" +:+ digits) with (String "0" (String "x" digits)).
  unfold version_str_of, Py.startswith. cbn. now rewrite prefix_empty.
Qed.

Lemma hex_nonnegative (n : N) :
  Py.drop 2 (Py.hex (Z.of_N n)) = Py.hex_digits n.
Proof.
  unfold Py.hex. destruct (Z.ltb_spec (Z.of_N n) 0) as [Hneg|_]; [lia|].
  cbn [Py.drop String.append]. now rewrite N2Z.id.
Qed.

(** Every character, for proofs by enumeration. *)
Lemma all_ascii (P : ascii -> bool) :
  forallb P (List.map ascii_of_nat (seq 0 256)) = true -> forall c, P c = true.
Proof.
  intros Hall c. rewrite forallb_forall in Hall. apply Hall.
  rewrite <- (ascii_nat_embedding c). apply in_map, in_seq.
  pose proof (nat_ascii_bounded c). lia.
Qed.

(** On two hex digits, [int] in base 10 is the value of two decimal digits,
    and fails as soon as one of them is a letter. *)
Lemma int10_hex_digit_pair (a b : ascii) :
  hex_digit_value a <> None -> hex_digit_value b <> None ->
  Py.int 10 (String a (String b EmptyString))
  = decimal_digits_value 0 (String a (String b EmptyString)).
Proof.
  intros Ha Hb.
  pose (P := fun a b : ascii =>
    implb (bool_decide (hex_digit_value a <> None)
           && bool_decide (hex_digit_value b <> None))
          (bool_decide (Py.int 10 (String a (String b EmptyString))
                        = decimal_digits_value 0 (String a (String b EmptyString))))).
  assert (HP : forall a b, P a b = true).
  { intros a'. apply (all_ascii (fun b' => P a' b')). revert a'.
    apply (all_ascii (fun a' =>
      forallb (fun b' => P a' b') (List.map ascii_of_nat (seq 0 256)))).
    vm_compute. reflexivity. }
  specialize (HP a b). unfold P in HP.
  rewrite !bool_decide_eq_true_2 in HP by assumption.
  now apply bool_decide_eq_true_1 in HP.
Qed.

(** C1.  For an integer and for a string that begins with "0x",
    [valueToOSVersionString] normalizes the value to the digit sequence [s]
    (the text of [hex] after its first two characters, the digits of a
    non-negative integer; or the string after the prefix) and returns
    "major.minor.patch" as the digit-position mapping of the specification
    gives them from [s]; it raises the ProcessorError "Unexpected value in
    version" when one of the digit parses fails.  In particular "0x1058" and
    4184 decode to "10.5.8", and 0 and "0x0000" to "0.0.0". *)
Theorem valueToOSVersionString_digit_mapping :
  (forall z : Z,
     valueToOSVersionString (OSInt z)
     = spec_decode (OSInt z) (Py.drop 2 (Py.hex z)))
  /\ (forall n : N, Py.drop 2 (Py.hex (Z.of_N n)) = Py.hex_digits n)
  /\ (forall digits : string,
        valueToOSVersionString (OSStr ("0x" +:+ digits))
        = spec_decode (OSStr ("0x" +:+ digits)) digits)
  /\ valueToOSVersionString (OSStr "0x1058") = Return "10.5.8"
  /\ valueToOSVersionString (OSInt 4184) = Return "10.5.8"
  /\ valueToOSVersionString (OSInt 0) = Return "0.0.0"
  /\ valueToOSVersionString (OSStr "0x0000") = Return "0.0.0".
Proof.
  split; [|split; [|split]].
  - intros z. now apply valueToOSVersionString_normalized.
  - apply hex_nonnegative.
  - intros digits. apply valueToOSVersionString_normalized.
    apply version_str_of_prefixed.
  - repeat split; reflexivity.
Qed.

(** A string without the "0x" prefix leaves [version_str] unbound: the
    exception is an UnboundLocalError, which [except ValueError] lets
    through. *)
Lemma valueToOSVersionString_unprefixed (s : string) :
  Py.startswith "0x" s = false ->
  valueToOSVersionString (OSStr s) = Raise (UnboundLocalError "version_str").
Proof.
  intros Hs. unfold valueToOSVersionString, version_str_of. now rewrite Hs.
Qed.

(** C7 (at the failing input).  The string "1058", which lacks the "0x"
    prefix, does not make [valueToOSVersionString] raise its ProcessorError:
    the call ends in an UnboundLocalError on [version_str]. *)
Theorem valueToOSVersionString_unprefixed_1058 :
  valueToOSVersionString (OSStr "1058") = Raise (UnboundLocalError "version_str")
  /\ is_processor_error (valueToOSVersionString (OSStr "1058")) = false.
Proof. split; reflexivity. Qed.

Lemma parse_version_str_first_four (s : string) :
  parse_version_str s = parse_version_str (substring 0 4 s).
Proof.
  unfold parse_version_str, Py.item, Py.slice.
  destruct s as [|a [|b [|c [|d s]]]]; try reflexivity.
  cbn [String.length Nat.eqb Nat.ltb Nat.leb substring String.get Nat.sub].
  rewrite !substring_0_0. reflexivity.
Qed.

Lemma returned_valueToOSVersionString (value : os_value) (s : string) :
  version_str_of value = Some s ->
  returned (valueToOSVersionString value) = format_version <$> parse_version_str s.
Proof.
  intros Hs. unfold valueToOSVersionString. rewrite Hs.
  destruct (parse_version_str s); reflexivity.
Qed.

(** C10.  The version string that [valueToOSVersionString] returns depends
    only on the first four characters of the normalized digit sequence: two
    values whose sequences have the same first four characters decode alike
    (both to the same string, or both fail), a sequence decodes as its first
    four characters do, and the empty sequence decodes to "0.0.0". *)
Theorem valueToOSVersionString_first_four
    (v1 v2 : os_value) (s1 s2 : string) :
  version_str_of v1 = Some s1 ->
  version_str_of v2 = Some s2 ->
  substring 0 4 s1 = substring 0 4 s2 ->
  returned (valueToOSVersionString v1) = returned (valueToOSVersionString v2)
  /\ returned (valueToOSVersionString v1)
     = returned (valueToOSVersionString (OSStr ("0x" +:+ substring 0 4 s1)))
  /\ valueToOSVersionString (OSStr "0x") = Return "0.0.0".
Proof.
  intros H1 H2 Hfour.
  rewrite (returned_valueToOSVersionString v1 s1 H1).
  rewrite (returned_valueToOSVersionString v2 s2 H2).
  rewrite (returned_valueToOSVersionString _ _ (version_str_of_prefixed _)).
  rewrite (parse_version_str_first_four s1), (parse_version_str_first_four s2).
  rewrite Hfour. repeat split; reflexivity.
Qed.

Lemma valueToOSVersionString_first_four_witness :
  returned (valueToOSVersionString (OSInt 66949))
  = returned (valueToOSVersionString (OSStr "0x1058f"))
  /\ returned (valueToOSVersionString (OSInt 66949))
     = returned (valueToOSVersionString (OSStr "0x1058"))
  /\ valueToOSVersionString (OSStr "0x") = Return "0.0.0".
Proof.
  apply (valueToOSVersionString_first_four
           (OSInt 66949) (OSStr "0x1058f") "10585" "1058f");
    reflexivity.
Defined.

(** ** Python's [sorted] *)

Section SortedFacts.
Context {A K : Type} (le : K -> K -> bool) (key : A -> K).
Hypothesis le_total : forall a b, le a b = true \/ le b a = true.
Hypothesis le_trans :
  forall a b c, le a b = true -> le b c = true -> le a c = true.

Lemma insert_sorted_Permutation (x : A) (l : list A) :
  Permutation (Py.insert_sorted le key x l) (x :: l).
Proof.
  induction l as [|y l IH]; cbn; [reflexivity|].
  destruct (le (key x) (key y)); [reflexivity|].
  rewrite IH. apply perm_swap.
Qed.

Lemma sorted_Permutation (l : list A) : Permutation (Py.sorted le key l) l.
Proof.
  induction l as [|x l IH]; cbn; [reflexivity|].
  rewrite insert_sorted_Permutation. now constructor.
Qed.

Lemma insert_sorted_StronglySorted (x : A) (l : list A) :
  StronglySorted (Py.key_le le key) l -> StronglySorted (Py.key_le le key) (Py.insert_sorted le key x l).
Proof.
  induction 1 as [|y l Hl IH Hy]; cbn.
  - repeat constructor.
  - destruct (le (key x) (key y)) eqn:Hxy.
    + constructor; [now constructor|]. constructor; [exact Hxy|].
      eapply List.Forall_impl; [|exact Hy]. intros z Hz.
      unfold Py.key_le in *. eauto.
    + constructor; [exact IH|].
      assert (Hyx : Py.key_le le key y x).
      { unfold Py.key_le. destruct (le_total (key y) (key x)); congruence. }
      eapply Permutation_Forall.
      * symmetry. apply insert_sorted_Permutation.
      * now constructor.
Qed.

Lemma sorted_StronglySorted (l : list A) : StronglySorted (Py.key_le le key) (Py.sorted le key l).
Proof.
  induction l as [|x l IH]; cbn; [constructor|].
  now apply insert_sorted_StronglySorted.
Qed.

Lemma le_refl (a : K) : le a a = true.
Proof. now destruct (le_total a a). Qed.

(** The first element of the sorted list is a least element of the list. *)
Lemma sorted_head_least (l : list A) (m : A) (rest : list A) :
  Py.sorted le key l = m :: rest ->
  In m l /\ forall x, In x l -> le (key m) (key x) = true.
Proof.
  intros Hs. pose proof (sorted_Permutation l) as Hp.
  pose proof (sorted_StronglySorted l) as Hss. rewrite Hs in Hp, Hss.
  split.
  - eapply Permutation_in; [exact Hp|]. now left.
  - intros x Hx. apply (Permutation_in _ (Permutation_sym Hp)) in Hx.
    inversion Hss as [|? ? _ Hall]; subst.
    destruct Hx as [<-|Hx]; [apply le_refl|].
    rewrite List.Forall_forall in Hall. now apply Hall.
Qed.

Lemma StronglySorted_last (l : list A) (e : A) :
  StronglySorted (Py.key_le le key) l -> last l = Some e ->
  forall x, In x l -> le (key x) (key e) = true.
Proof.
  induction 1 as [|y l Hl IH Hy]; [discriminate|].
  intros Hlast x Hx. destruct l as [|z l].
  - cbn in Hlast. injection Hlast as <-. destruct Hx as [<-|[]]. apply le_refl.
  - change (last (z :: l) = Some e) in Hlast.
    destruct Hx as [<-|Hx]; [|now apply IH].
    rewrite List.Forall_forall in Hy. apply Hy.
    apply list_elem_of_In. now apply last_Some_elem_of.
Qed.

(** The last element of the sorted list is a greatest element of the list. *)
Lemma sorted_last_greatest (l : list A) (e : A) :
  last (Py.sorted le key l) = Some e ->
  In e l /\ forall x, In x l -> le (key x) (key e) = true.
Proof.
  intros Hlast. pose proof (sorted_Permutation l) as Hp. split.
  - eapply Permutation_in; [exact Hp|].
    apply list_elem_of_In. now apply last_Some_elem_of.
  - intros x Hx. eapply StronglySorted_last; eauto using sorted_StronglySorted.
    now apply (Permutation_in _ (Permutation_sym Hp)).
Qed.

Lemma sorted_nonempty (l : list A) : l <> [] -> Py.sorted le key l <> [].
Proof.
  intros Hl Hs. apply Hl. apply Permutation_nil.
  rewrite <- Hs. apply sorted_Permutation.
Qed.

End SortedFacts.

(** ** MetadataEntrySelector: selection of the item *)

Lemma Zle_total (a b : Z) : (a <=? b) = true \/ (b <=? a) = true.
Proof. rewrite !Z.leb_le. lia. Qed.

Lemma Zle_trans (a b c : Z) :
  (a <=? b) = true -> (b <=? c) = true -> (a <=? c) = true.
Proof. rewrite !Z.leb_le. lia. Qed.

Lemma version_selector_latest (env : Env) :
  version env = None \/ version env = Some "latest" ->
  version_selector env = "latest".
Proof. unfold version_selector. now intros [-> | ->]. Qed.

Lemma select_item_latest (metadata : list Item) :
  select_item metadata "latest"
  = match last (Py.sorted Z.leb Date metadata) with
    | Some item => Return item
    | None => Raise (IndexError "list index out of range")
    end.
Proof. reflexivity. Qed.

Lemma select_item_latest_greatest (metadata : list Item) :
  metadata <> [] ->
  exists item,
    select_item metadata "latest" = Return item
    /\ In item metadata
    /\ forall x, In x metadata -> Date x <= Date item.
Proof.
  intros Hne. rewrite select_item_latest.
  destruct (last (Py.sorted Z.leb Date metadata)) as [item|] eqn:Hlast.
  - exists item. split; [reflexivity|].
    destruct (sorted_last_greatest Z.leb Date Zle_total Zle_trans _ _ Hlast)
      as [Hin Hmax].
    split; [exact Hin|]. intros x Hx. apply Z.leb_le. now apply Hmax.
  - apply last_None in Hlast.
    now apply (sorted_nonempty Z.leb Date) in Hne.
Qed.

(** C2 (amended).  With the selector "latest", or with no selector, the
    selection over a non-empty list returns an entry of the list whose date
    is maximal.  Over any permutation of the list it returns an entry of the
    same date, and the same entry when no other entry of the list has the
    maximal date. *)
Theorem select_item_latest_maximal (metadata : list Item) (env : Env) :
  metadata <> [] ->
  version env = None \/ version env = Some "latest" ->
  exists item,
    select_item metadata (version_selector env) = Return item
    /\ In item metadata
    /\ (forall x, In x metadata -> Date x <= Date item)
    /\ forall metadata',
         Permutation metadata metadata' ->
         exists item',
           select_item metadata' (version_selector env) = Return item'
           /\ Date item' = Date item
           /\ ((forall x, In x metadata -> Date x = Date item -> x = item) ->
               item' = item).
Proof.
  intros Hne Hsel. rewrite (version_selector_latest env Hsel).
  destruct (select_item_latest_greatest metadata Hne) as (item & Hr & Hin & Hmax).
  exists item. repeat split; try assumption.
  intros metadata' Hperm.
  assert (Hne' : metadata' <> []).
  { intros ->. apply Hne. now apply Permutation_nil, Permutation_sym. }
  destruct (select_item_latest_greatest metadata' Hne')
    as (item' & Hr' & Hin' & Hmax').
  exists item'. split; [exact Hr'|].
  assert (Hdate : Date item' = Date item).
  { apply (Permutation_in _ (Permutation_sym Hperm)) in Hin'.
    apply (Permutation_in _ Hperm) in Hin.
    specialize (Hmax _ Hin'). specialize (Hmax' _ Hin). lia. }
  split; [exact Hdate|]. intros Huniq. apply Huniq; [|exact Hdate].
  now apply (Permutation_in _ (Permutation_sym Hperm)).
Qed.

Lemma select_item_latest_maximal_witness :
  exists item,
    select_item [sample_1443; sample_1442] (version_selector sample_env)
    = Return item
    /\ In item [sample_1443; sample_1442]
    /\ (forall x, In x [sample_1443; sample_1442] -> Date x <= Date item)
    /\ forall metadata',
         Permutation [sample_1443; sample_1442] metadata' ->
         exists item',
           select_item metadata' (version_selector sample_env) = Return item'
           /\ Date item' = Date item
           /\ ((forall x, In x [sample_1443; sample_1442] ->
                          Date x = Date item -> x = item) ->
               item' = item).
Proof.
  apply (select_item_latest_maximal [sample_1443; sample_1442] sample_env).
  - discriminate.
  - left. reflexivity.
Defined.

(** C2 (counterexample).  Two entries that share the maximal date: the
    selection returns the one that comes last in the list, so the result
    changes when the list is permuted. *)
Lemma select_item_latest_depends_on_order :
  ~ (forall metadata metadata' : list Item,
       metadata <> [] ->
       Permutation metadata metadata' ->
       select_item metadata "latest" = select_item metadata' "latest").
Proof.
  intros Hinv.
  specialize (Hinv [sample_1443; sample_1443_again]
                   [sample_1443_again; sample_1443]).
  assert (Heq : select_item [sample_1443; sample_1443_again] "latest"
                = Return sample_1443_again) by reflexivity.
  assert (Heq' : select_item [sample_1443_again; sample_1443] "latest"
                 = Return sample_1443) by reflexivity.
  rewrite Heq, Heq' in Hinv.
  assert (Hbad : @Return Item sample_1443_again = Return sample_1443).
  { apply Hinv; [discriminate|apply perm_swap]. }
  apply (f_equal (fun r => Title <$> returned r)) in Hbad. discriminate Hbad.
Qed.

(** C6.  When the feed parses to an empty list of entries and the selector
    is "latest", the selection fails: indexing the empty sorted list raises
    an IndexError, and the run ends there with the state it started from. *)
Theorem get_lyncInstaller_info_empty_feed
    {K : Type} (LooseVersion : string -> K) (lv_le : K -> K -> bool)
    (download : string -> list (string * string) -> string + string)
    (readPlistFromString : string -> result (list Item))
    (st : state) (data : string) :
  download (feed_url (env st)) headers = inr data ->
  readPlistFromString data = Return [] ->
  version_selector (env st) = "latest" ->
  select_item [] (version_selector (env st))
  = Raise (IndexError "list index out of range")
  /\ get_lyncInstaller_info LooseVersion lv_le download readPlistFromString st
     = (st, Raise (IndexError "list index out of range")).
Proof.
  intros Hdl Hparse Hsel. rewrite Hsel. split; [reflexivity|].
  unfold get_lyncInstaller_info, mbind, M_bind, get_env, lift.
  rewrite Hdl, Hparse, Hsel. reflexivity.
Qed.

Lemma get_lyncInstaller_info_empty_feed_witness :
  select_item [] (version_selector sample_env)
  = Raise (IndexError "list index out of range")
  /\ get_lyncInstaller_info Distutils.LooseVersion Distutils.le
       (sample_download "<plist/>") (sample_readPlistFromString [])
       (mkState sample_env [])
     = (mkState sample_env [], Raise (IndexError "list index out of range")).
Proof.
  apply (get_lyncInstaller_info_empty_feed Distutils.LooseVersion Distutils.le
           (sample_download "<plist/>") (sample_readPlistFromString [])
           (mkState sample_env []) "<plist/>");
    reflexivity.
Defined.

(** *** Strings: prefixes and occurrences *)

Lemma app_String (c : ascii) (s t : string) :
  String c s +:+ t = String c (s +:+ t).
Proof. reflexivity. Qed.

Lemma app_empty_l (t : string) : EmptyString +:+ t = t.
Proof. reflexivity. Qed.

Lemma app_empty_r (s : string) : s +:+ EmptyString = s.
Proof. induction s as [|c s IH]; [reflexivity|]. now rewrite app_String, IH. Qed.

Lemma app_assoc (s t u : string) : (s +:+ t) +:+ u = s +:+ (t +:+ u).
Proof.
  induction s as [|c s IH]; [reflexivity|]. now rewrite !app_String, IH.
Qed.

Lemma prefix_String (a b : ascii) (p s : string) :
  String.prefix (String a p) (String b s)
  = if ascii_dec a b then String.prefix p s else false.
Proof. reflexivity. Qed.

Lemma prefix_app (p s : string) : String.prefix p (p +:+ s) = true.
Proof.
  induction p as [|a p IH]; [apply prefix_empty|].
  rewrite app_String, prefix_String. now destruct (ascii_dec a a).
Qed.

Lemma prefix_inv (p s : string) :
  String.prefix p s = true -> exists t, s = p +:+ t.
Proof.
  revert s. induction p as [|a p IH]; intros s Hp.
  - now exists s.
  - destruct s as [|b s]; [discriminate|].
    rewrite prefix_String in Hp. destruct (ascii_dec a b) as [<-|]; [|discriminate].
    destruct (IH s Hp) as [t ->]. now exists t.
Qed.

Lemma find_from_prefix (sub s : string) (i : nat) :
  String.prefix sub s = true -> Py.find_from sub s i = Some i.
Proof. intros Hp. destruct s; cbn [Py.find_from]; now rewrite Hp. Qed.

Lemma find_from_app (sub a b : string) (i : nat) :
  exists j, Py.find_from sub (a +:+ sub +:+ b) i = Some j.
Proof.
  revert i. induction a as [|c a IH]; intros i.
  - rewrite app_empty_l. exists i. apply find_from_prefix, prefix_app.
  - rewrite app_String. cbn [Py.find_from].
    destruct (String.prefix sub (String c (a +:+ sub +:+ b))); eauto.
Qed.

Lemma find_from_inv (sub s : string) (i j : nat) :
  Py.find_from sub s i = Some j -> exists a b, s = a +:+ sub +:+ b.
Proof.
  revert i. induction s as [|c s IH]; intros i; cbn [Py.find_from].
  - destruct (String.prefix sub EmptyString) eqn:Hp; [|discriminate].
    intros _. apply prefix_inv in Hp as [t Ht]. now exists EmptyString, t.
  - destruct (String.prefix sub (String c s)) eqn:Hp.
    + intros _. apply prefix_inv in Hp as [t Ht]. now exists EmptyString, t.
    + intros Hf. apply IH in Hf as (a & b & ->). now exists (String c a), b.
Qed.

(** [sub in s] holds exactly when [s] has [sub] as a substring. *)
Lemma contains_spec (sub s : string) :
  Py.contains sub s = true <-> exists a b, s = a +:+ sub +:+ b.
Proof.
  unfold Py.contains, Py.find. split.
  - destruct (Py.find_from sub s 0) eqn:Hf; [|discriminate].
    intros _. eapply find_from_inv, Hf.
  - intros (a & b & ->). now destruct (find_from_app sub a b 0) as [j ->].
Qed.

Lemma join_In (sep x : string) (l : list string) :
  In x l -> exists a b, Py.join sep l = a +:+ x +:+ b.
Proof.
  induction l as [|y l IH]; [intros []|]. intros [->|Hx].
  - destruct l as [|z l].
    + exists EmptyString, EmptyString. cbn [Py.join].
      now rewrite app_empty_l, app_empty_r.
    + exists EmptyString. eexists. cbn [Py.join]. now rewrite app_empty_l.
  - destruct (IH Hx) as (a & b & Hj). destruct l as [|z l]; [destruct Hx|].
    exists (y +:+ sep +:+ a), b. cbn [Py.join]. cbn [Py.join] in Hj.
    rewrite Hj. now rewrite !app_assoc.
Qed.

(** *** Selection of a given version *)

Lemma select_item_version (metadata : list Item) (version_str : string) :
  version_str <> "latest" ->
  select_item metadata version_str
  = match matched_items metadata version_str with
    | [item] => Return item
    | _ =>
        Raise (ProcessorError
                 (Msg ("Could not find version " +:+ version_str
                       +:+ " in update metadata. Updates that are available: "
                       +:+ Py.join ", "
                             (List.map (fun item => "'" +:+ Title item +:+ "'")
                                       metadata))))
    end.
Proof.
  intros Hv. unfold select_item.
  destruct (String.eqb_spec version_str "latest") as [|_]; [contradiction|].
  destruct (matched_items metadata version_str) as [|item [|item' rest]];
    reflexivity.
Qed.

Lemma filter_nil {A : Type} (f : A -> bool) (l : list A) :
  (forall x, In x l -> f x = false) -> List.filter f l = [].
Proof.
  induction l as [|x l IH]; intros Hf; [reflexivity|]. cbn.
  rewrite (Hf x) by now left. apply IH. intros y Hy. apply Hf. now right.
Qed.

Lemma contains_is_substring (sub s : string) :
  Py.contains sub s = true <-> is_substring sub s.
Proof. apply contains_spec. Qed.

Lemma contains_not_substring (sub s : string) :
  ~ is_substring sub s -> Py.contains sub s = false.
Proof.
  intros Hs. destruct (Py.contains sub s) eqn:Hc; [|reflexivity].
  now apply contains_is_substring in Hc.
Qed.

(** C3.  With an explicit selector, the selection returns the entry whose
    title has the padded selector as a substring when exactly one entry of
    the feed has: the entry stands somewhere in the feed and no entry before
    or after it matches.  When no entry matches, and when two entries of the
    feed match, it raises a ProcessorError whose text lists the titles: the
    quoted title of every entry of the feed occurs in it. *)
Theorem select_item_version_unique_or_error
    (metadata : list Item) (version_str : string) :
  version_str <> "latest" ->
  (forall before item after,
     metadata = (before ++ item :: after)%list ->
     is_substring (" " +:+ version_str +:+ " ") (Title item) ->
     (forall x, In x (before ++ after)%list ->
                ~ is_substring (" " +:+ version_str +:+ " ") (Title x)) ->
     select_item metadata version_str = Return item)
  /\ exists text,
       (forall item, In item metadata ->
                     is_substring ("'" +:+ Title item +:+ "'") text)
       /\ ((forall x, In x metadata ->
                      ~ is_substring (" " +:+ version_str +:+ " ") (Title x)) ->
           select_item metadata version_str = Raise (ProcessorError (Msg text)))
       /\ (forall l1 x l2 y l3,
             metadata = (l1 ++ x :: l2 ++ y :: l3)%list ->
             is_substring (" " +:+ version_str +:+ " ") (Title x) ->
             is_substring (" " +:+ version_str +:+ " ") (Title y) ->
             select_item metadata version_str = Raise (ProcessorError (Msg text))).
Proof.
  intros Hv. rewrite (select_item_version metadata version_str Hv).
  unfold matched_items. split.
  - intros before item after -> Hitem Hothers.
    rewrite List.filter_app. cbn [List.filter].
    rewrite (proj2 (contains_is_substring _ _) Hitem).
    rewrite (filter_nil _ before), (filter_nil _ after); [reflexivity| |].
    + intros x Hx. apply contains_not_substring, Hothers, in_or_app. now right.
    + intros x Hx. apply contains_not_substring, Hothers, in_or_app. now left.
  - exists ("Could not find version " +:+ version_str
            +:+ " in update metadata. Updates that are available: "
            +:+ Py.join ", "
                  (List.map (fun item => "'" +:+ Title item +:+ "'") metadata)).
    split; [|split].
    + intros item Hin.
      destruct (join_In ", " ("'" +:+ Title item +:+ "'")
                  (List.map (fun item => "'" +:+ Title item +:+ "'") metadata))
        as (a & b & Hj).
      { now apply (in_map (fun item => "'" +:+ Title item +:+ "'")). }
      exists ("Could not find version " +:+ version_str
              +:+ " in update metadata. Updates that are available: " +:+ a), b.
      rewrite Hj, !app_assoc. reflexivity.
    + intros Hnone. rewrite filter_nil; [reflexivity|].
      intros x Hx. now apply contains_not_substring, Hnone.
    + intros l1 x l2 y l3 -> Hx Hy.
      rewrite List.filter_app. cbn [List.filter].
      rewrite (proj2 (contains_is_substring _ _) Hx).
      rewrite List.filter_app. cbn [List.filter].
      rewrite (proj2 (contains_is_substring _ _) Hy).
      destruct (List.filter _ l1) as [|a [|b r]];
        destruct (List.filter _ l2) as [|c r']; reflexivity.
Qed.

Lemma select_item_version_unique_or_error_witness :
  select_item [sample_1442; sample_1443] "14.4.3" = Return sample_1443.
Proof.
  apply (proj1 (select_item_version_unique_or_error
                  [sample_1442; sample_1443] "14.4.3" ltac:(discriminate))
               [sample_1442] sample_1443 []).
  - reflexivity.
  - exists "Lync", "Update". reflexivity.
  - intros x [<-|[]] Hsub. apply contains_is_substring in Hsub.
    discriminate Hsub.
Defined.

Example select_item_version_found :
  select_item [sample_1442; sample_1443] "14.4.3" = Return sample_1443.
Proof. reflexivity. Qed.

Example select_item_version_ambiguous :
  select_item [sample_1442; sample_1443; sample_1443_again] "14.4.3"
  = Raise (ProcessorError (Msg
      ("Could not find version 14.4.3 in update metadata. "
       +:+ "Updates that are available: 'Lync 14.4.2 Update', "
       +:+ "'Lync 14.4.3 Update', 'Lync 14.4.3 Update (reissued)'"))).
Proof. reflexivity. Qed.

Example select_item_version_missing :
  select_item [sample_1442; sample_1443] "14.4" 
  = Raise (ProcessorError (Msg
      ("Could not find version 14.4 in update metadata. "
       +:+ "Updates that are available: 'Lync 14.4.2 Update', "
       +:+ "'Lync 14.4.3 Update'"))).
Proof. reflexivity. Qed.

(** ** InstallDescriptorBuilder: getInstallsItems *)

Lemma paths_elem_of (item : Item) (path : option string) :
  path ∈ ((fun kv : string * Trigger => File kv.2)
            <$> map_to_list (triggers_of item))
  <-> exists key t, triggers_of item !! key = Some t /\ File t = path.
Proof.
  rewrite list_elem_of_fmap. split.
  - intros ([key t] & -> & Hin). apply elem_of_map_to_list in Hin. eauto.
  - intros (key & t & Hl & <-). exists (key, t). split; [reflexivity|].
    now apply elem_of_map_to_list.
Qed.

Lemma installs_item_fields (item : Item) :
  installs_item item !! "CFBundleShortVersionString" = Some (getVersion item)
  /\ installs_item item !! "CFBundleVersion" = Some (getVersion item)
  /\ installs_item item !! "path" = Some "/Applications/Lync/Contents/Info.plist"
  /\ installs_item item !! "type" = Some "bundle"
  /\ installs_item item !! "version_comparison_key"
     = Some "CFBundleShortVersionString".
Proof. unfold installs_item. repeat split; now simplify_map_eq. Qed.

(** C5.  For an entry that passes the check of its triggers,
    [getInstallsItems] returns None when no trigger has the file
    "Contents/Info.plist", and otherwise the one-element list of the
    descriptor whose two version keys hold the version extracted from the
    title, whose path is "/Applications/Lync/Contents/Info.plist", whose
    type is "bundle" and whose version comparison key is
    "CFBundleShortVersionString". *)
Theorem getInstallsItems_descriptor (item : Item) :
  sanityCheckExpectedTriggers item = Return tt ->
  ((forall key t, triggers_of item !! key = Some t ->
                  File t <> Some "Contents/Info.plist") ->
   getInstallsItems item = Return None)
  /\ ((exists key t, triggers_of item !! key = Some t
                     /\ File t = Some "Contents/Info.plist") ->
      exists d : gmap string string,
        getInstallsItems item = Return (Some [d])
        /\ d !! "CFBundleShortVersionString" = Some (getVersion item)
        /\ d !! "CFBundleVersion" = Some (getVersion item)
        /\ d !! "path" = Some "/Applications/Lync/Contents/Info.plist"
        /\ d !! "type" = Some "bundle"
        /\ d !! "version_comparison_key" = Some "CFBundleShortVersionString").
Proof.
  intros Hcheck. unfold getInstallsItems. rewrite Hcheck.
  cbn [mbind result_bind]. split.
  - intros Hnone. rewrite bool_decide_eq_false_2; [reflexivity|].
    intros (key & t & Hl & Hf)%paths_elem_of. now apply (Hnone key t).
  - intros Hsome. rewrite bool_decide_eq_true_2 by now apply paths_elem_of.
    exists (installs_item item). split; [reflexivity|].
    apply installs_item_fields.
Qed.

Lemma getInstallsItems_descriptor_witness :
  ((forall key t, triggers_of sample_1443 !! key = Some t ->
                  File t <> Some "Contents/Info.plist") ->
   getInstallsItems sample_1443 = Return None)
  /\ ((exists key t, triggers_of sample_1443 !! key = Some t
                     /\ File t = Some "Contents/Info.plist") ->
      exists d : gmap string string,
        getInstallsItems sample_1443 = Return (Some [d])
        /\ d !! "CFBundleShortVersionString" = Some (getVersion sample_1443)
        /\ d !! "CFBundleVersion" = Some (getVersion sample_1443)
        /\ d !! "path" = Some "/Applications/Lync/Contents/Info.plist"
        /\ d !! "type" = Some "bundle"
        /\ d !! "version_comparison_key" = Some "CFBundleShortVersionString").
Proof.
  apply (getInstallsItems_descriptor sample_1443). reflexivity.
Defined.

Example getInstallsItems_sample :
  getInstallsItems sample_1443 = Return (Some [installs_item sample_1443])
  /\ getVersion sample_1443 = "14.4.3".
Proof. split; reflexivity. Qed.

(** ** The order of LooseVersion keys *)

Module DistutilsFacts.
Import Distutils.

Lemma string_compare_refl (s : string) : OrdersEx.String_as_OT.compare s s = Eq.
Proof.
  destruct (OrdersEx.String_as_OT.compare_spec s s) as [_|Hlt|Hlt];
    [reflexivity| |]; now apply OrdersEx.String_as_OT.lt_strorder in Hlt.
Qed.

Lemma string_compare_eq (s t : string) :
  OrdersEx.String_as_OT.compare s t = Eq -> s = t.
Proof.
  now destruct (OrdersEx.String_as_OT.compare_spec s t).
Qed.

Lemma string_compare_lt_trans (s t u : string) :
  OrdersEx.String_as_OT.compare s t = Lt ->
  OrdersEx.String_as_OT.compare t u = Lt ->
  OrdersEx.String_as_OT.compare s u = Lt.
Proof.
  intros Hst Htu.
  exact (StrictOrder_Transitive (R := OrdersEx.String_as_OT.lt) s t u Hst Htu).
Qed.

Lemma string_compare_antisym (s t : string) :
  OrdersEx.String_as_OT.compare t s = CompOpp (OrdersEx.String_as_OT.compare s t).
Proof.
  destruct (OrdersEx.String_as_OT.compare_spec s t) as [->|Hlt|Hlt]; cbn.
  - apply string_compare_refl.
  - destruct (OrdersEx.String_as_OT.compare_spec t s) as [->|Hlt'|Hlt'];
      [|exfalso|reflexivity].
    + now apply OrdersEx.String_as_OT.lt_strorder in Hlt.
    + apply (StrictOrder_Irreflexive (R := OrdersEx.String_as_OT.lt) s).
      now transitivity t.
  - exact Hlt.
Qed.

Lemma compare_component_refl (a : component) : compare_component a a = Eq.
Proof.
  destruct a as [n|s]; cbn; [apply Z.compare_refl|apply string_compare_refl].
Qed.

Lemma compare_component_eq (a b : component) :
  compare_component a b = Eq -> a = b.
Proof.
  destruct a as [n|s], b as [m|t]; cbn; try discriminate.
  - now intros ->%Z.compare_eq.
  - now intros ->%string_compare_eq.
Qed.

Lemma compare_component_antisym (a b : component) :
  compare_component b a = CompOpp (compare_component a b).
Proof.
  destruct a as [n|s], b as [m|t]; cbn; try reflexivity.
  - apply Z.compare_antisym.
  - apply string_compare_antisym.
Qed.

Lemma compare_component_lt_trans (a b c : component) :
  compare_component a b = Lt -> compare_component b c = Lt ->
  compare_component a c = Lt.
Proof.
  destruct a as [n|s], b as [m|t], c as [k|u]; cbn; try discriminate;
    try reflexivity.
  - rewrite !Z.compare_lt_iff. lia.
  - apply string_compare_lt_trans.
Qed.

Lemma compare_refl (v : list component) : compare v v = Eq.
Proof.
  induction v as [|a v IH]; cbn; [reflexivity|].
  now rewrite compare_component_refl.
Qed.

Lemma compare_eq (v w : list component) : compare v w = Eq -> v = w.
Proof.
  revert w. induction v as [|a v IH]; intros [|b w]; cbn; try discriminate;
    [reflexivity|].
  destruct (compare_component a b) eqn:Hab; try discriminate.
  apply compare_component_eq in Hab as ->. now intros ->%IH.
Qed.

Lemma compare_antisym (v w : list component) :
  compare w v = CompOpp (compare v w).
Proof.
  revert w. induction v as [|a v IH]; intros [|b w]; cbn; try reflexivity.
  rewrite (compare_component_antisym a b).
  destruct (compare_component a b); cbn; [apply IH|reflexivity|reflexivity].
Qed.

Lemma compare_lt_trans (u v w : list component) :
  compare u v = Lt -> compare v w = Lt -> compare u w = Lt.
Proof.
  revert v w. induction u as [|a u IH]; intros [|b v] [|c w]; cbn;
    try discriminate; try reflexivity.
  destruct (compare_component a b) eqn:Hab; try discriminate.
  - apply compare_component_eq in Hab as ->.
    destruct (compare_component b c); try discriminate; [apply IH|reflexivity].
  - intros _. destruct (compare_component b c) eqn:Hbc; try discriminate.
    + apply compare_component_eq in Hbc as <-. now rewrite Hab.
    + now rewrite (compare_component_lt_trans a b c Hab Hbc).
Qed.

Lemma le_total (v w : list component) : le v w = true \/ le w v = true.
Proof.
  unfold le. rewrite (compare_antisym v w).
  destruct (compare v w); cbn; auto.
Qed.

Lemma le_trans (u v w : list component) :
  le u v = true -> le v w = true -> le u w = true.
Proof.
  unfold le. destruct (compare u v) eqn:Huv; try discriminate; intros _.
  - now apply compare_eq in Huv as ->.
  - destruct (compare v w) eqn:Hvw; try discriminate; intros _.
    + apply compare_eq in Hvw as <-. now rewrite Huv.
    + now rewrite (compare_lt_trans u v w Huv Hvw).
Qed.

Example LooseVersion_numeric :
  LooseVersion "14.0.10" = [CInt 14; CInt 0; CInt 10]
  /\ le (LooseVersion "14.0.2") (LooseVersion "14.0.10") = true
  /\ le (LooseVersion "14.0.10") (LooseVersion "14.0.2") = false
  /\ LooseVersion "1.5.1b2" = [CInt 1; CInt 5; CInt 1; CStr "b"; CInt 2].
Proof. repeat split; reflexivity. Qed.

End DistutilsFacts.

(** ** DependencyResolver: getRequiresFromUpdateItem *)

(** Stability: the first element of the sorted list is the first of the
    least elements in the order of the input. *)
Lemma sorted_head_first {A K : Type} (le : K -> K -> bool) (key : A -> K)
    (l : list A) (m : A) (rest : list A) :
  Py.sorted le key l = m :: rest ->
  exists before after,
    l = (before ++ m :: after)%list
    /\ forall x, In x before -> le (key x) (key m) = false.
Proof.
  revert m rest. induction l as [|x l IH]; intros m rest; [discriminate|].
  cbn [Py.sorted]. destruct (Py.sorted le key l) as [|m' rest'] eqn:Hs.
  - cbn. intros [= <- <-]. destruct l as [|y l].
    + exists [], []. split; [reflexivity|]. intros ? [].
    + exfalso. cbn [Py.sorted] in Hs.
      destruct (Py.sorted le key l) as [|z r]; cbn in Hs; [discriminate|].
      destruct (le (key y) (key z)); discriminate.
  - cbn [Py.insert_sorted]. destruct (le (key x) (key m')) eqn:Hle.
    + intros [= <- <-]. exists [], l. split; [reflexivity|]. intros ? [].
    + intros [= <- <-]. destruct (IH m' rest' eq_refl) as (before & after & -> & Hb).
      exists (x :: before), after. split; [reflexivity|].
      intros y [<-|Hy]; [exact Hle|now apply Hb].
Qed.

Lemma sanityCheckExpectedTriggers_passes (item : Item) :
  sanityCheckExpectedTriggers item = Return tt <->
  Trigger_Condition item = Some ["and"; "Lync"]
  /\ is_Some (triggers_of item !! "Lync").
Proof.
  unfold sanityCheckExpectedTriggers.
  destruct (bool_decide_reflect (Trigger_Condition item = Some ["and"; "Lync"]))
    as [Hc|Hc]; cbn [negb].
  - destruct (bool_decide_reflect (is_Some (triggers_of item !! "Lync")))
      as [Ht|Ht]; cbn [negb]; [tauto|].
    split; [discriminate|tauto].
  - split; [|tauto]. destruct (Trigger_Condition item); discriminate.
Qed.

(** C4.  For an entry that passes the check of its triggers,
    [getRequiresFromUpdateItem] returns None when the "Lync" trigger has no
    version list or an empty one.  Otherwise, with [m] the least version of
    the list under the LooseVersion order (the first such one in the list,
    found by sorting whatever the order of the list), it returns None when
    [m] is "14.0.0" and the one-element list ["<update name>-" + m]
    otherwise. *)
Theorem getRequiresFromUpdateItem_minimum
    {K : Type} (LooseVersion : string -> K) (lv_le : K -> K -> bool)
    (env : Env) (item : Item) :
  (forall a b, lv_le a b = true \/ lv_le b a = true) ->
  (forall a b c, lv_le a b = true -> lv_le b c = true -> lv_le a c = true) ->
  sanityCheckExpectedTriggers item = Return tt ->
  exists t,
    triggers_of item !! "Lync" = Some t
    /\ ((Versions t = None \/ Versions t = Some []) ->
        getRequiresFromUpdateItem LooseVersion lv_le env item = Return None)
    /\ (forall versions,
          Versions t = Some versions -> versions <> [] ->
          exists m before after,
            versions = (before ++ m :: after)%list
            /\ (forall x, In x versions ->
                          lv_le (LooseVersion m) (LooseVersion x) = true)
            /\ (forall x, In x before ->
                          lv_le (LooseVersion x) (LooseVersion m) = false)
            /\ getRequiresFromUpdateItem LooseVersion lv_le env item
               = if String.eqb m "14.0.0" then Return None
                 else Return (Some [default MUNKI_UPDATE_NAME
                                            (munki_update_name env)
                                    +:+ "-" +:+ m])).
Proof.
  intros Htotal Htrans Hcheck.
  destruct (proj1 (sanityCheckExpectedTriggers_passes item) Hcheck)
    as [_ [t Ht]].
  exists t. split; [exact Ht|].
  unfold getRequiresFromUpdateItem. rewrite Hcheck. cbn [mbind result_bind].
  unfold mcp_versions_of. rewrite Ht. cbn [from_option id]. split.
  - intros [-> | ->]; reflexivity.
  - intros versions -> Hne. cbn [from_option id].
    destruct versions as [|v versions]; [contradiction|].
    destruct (Py.sorted lv_le LooseVersion (v :: versions)) as [|m rest] eqn:Hs.
    { now apply (sorted_nonempty lv_le LooseVersion) in Hne. }
    destruct (sorted_head_least lv_le LooseVersion Htotal Htrans _ _ _ Hs)
      as [_ Hleast].
    destruct (sorted_head_first lv_le LooseVersion _ _ _ Hs)
      as (before & after & Hl & Hfirst).
    exists m, before, after. repeat split; assumption || reflexivity.
Qed.

Lemma getRequiresFromUpdateItem_minimum_witness :
  exists t,
    triggers_of sample_1442 !! "Lync" = Some t
    /\ ((Versions t = None \/ Versions t = Some []) ->
        getRequiresFromUpdateItem Distutils.LooseVersion Distutils.le
          sample_env sample_1442 = Return None)
    /\ (forall versions,
          Versions t = Some versions -> versions <> [] ->
          exists m before after,
            versions = (before ++ m :: after)%list
            /\ (forall x, In x versions ->
                          Distutils.le (Distutils.LooseVersion m)
                                       (Distutils.LooseVersion x) = true)
            /\ (forall x, In x before ->
                          Distutils.le (Distutils.LooseVersion x)
                                       (Distutils.LooseVersion m) = false)
            /\ getRequiresFromUpdateItem Distutils.LooseVersion Distutils.le
                 sample_env sample_1442
               = if String.eqb m "14.0.0" then Return None
                 else Return (Some [default MUNKI_UPDATE_NAME
                                            (munki_update_name sample_env)
                                    +:+ "-" +:+ m])).
Proof.
  apply (getRequiresFromUpdateItem_minimum Distutils.LooseVersion Distutils.le
           sample_env sample_1442).
  - exact DistutilsFacts.le_total.
  - exact DistutilsFacts.le_trans.
  - reflexivity.
Defined.

Example getRequiresFromUpdateItem_unsorted :
  getRequiresFromUpdateItem Distutils.LooseVersion Distutils.le
    sample_env sample_1442 = Return (Some ["Lync_Installer-14.0.2"]).
Proof. reflexivity. Qed.

Example getRequiresFromUpdateItem_baseline :
  getRequiresFromUpdateItem Distutils.LooseVersion Distutils.le
    sample_env sample_1443 = Return None.
Proof. reflexivity. Qed.

(** ** Title-to-version extraction: getVersion *)

Lemma length_app (s t : string) :
  String.length (s +:+ t) = (String.length s + String.length t)%nat.
Proof.
  induction s as [|c s IH]; [reflexivity|]. rewrite app_String. cbn. now rewrite IH.
Qed.

Lemma drop_app (s t : string) : Py.drop (String.length s) (s +:+ t) = t.
Proof.
  induction s as [|c s IH]; [now destruct t|]. rewrite app_String. exact IH.
Qed.

Lemma substring_app (s t : string) : substring 0 (String.length s) (s +:+ t) = s.
Proof.
  induction s as [|c s IH]; [apply substring_0_0|].
  rewrite app_String. cbn. now rewrite IH.
Qed.

Lemma remove_prefix_app (p t : string) : remove_prefix p (p +:+ t) = t.
Proof. unfold remove_prefix. now rewrite prefix_app, drop_app. Qed.

Lemma remove_suffix_app (v p : string) : remove_suffix p (v +:+ p) = v.
Proof.
  unfold remove_suffix. rewrite length_app.
  replace (String.length v + String.length p - String.length p)%nat
    with (String.length v) by lia.
  now rewrite drop_app, String.eqb_refl, substring_app.
Qed.

(** The characters of an occurrence are skipped. *)
Lemma replace_from_skip (old new p s : string) :
  Py.replace_from old new (String.length p) (p +:+ s)
  = Py.replace_from old new 0 s.
Proof.
  induction p as [|c p IH]; [reflexivity|]. rewrite app_String. exact IH.
Qed.

(** An occurrence at the head is replaced, and the scan resumes after it. *)
Lemma replace_from_head (c : ascii) (old new s : string) :
  Py.replace_from (String c old) new 0 (String c old +:+ s)
  = new +:+ Py.replace_from (String c old) new 0 s.
Proof.
  pose proof (prefix_app (String c old) s) as Hp. rewrite app_String in *.
  cbn [Py.replace_from]. rewrite Hp.
  replace (String.length (String c old) - 1)%nat with (String.length old)
    by (cbn [String.length]; lia).
  now rewrite replace_from_skip.
Qed.

Lemma find_from_None (sub s : string) (c : ascii) (i : nat) :
  Py.find_from sub (String c s) i = None ->
  String.prefix sub (String c s) = false /\ Py.find_from sub s (S i) = None.
Proof.
  cbn [Py.find_from]. now destruct (String.prefix sub (String c s)).
Qed.

(** A string without occurrence is left unchanged. *)
Lemma replace_from_absent (old new s : string) (i : nat) :
  Py.find_from old s i = None -> Py.replace_from old new 0 s = s.
Proof.
  revert i. induction s as [|c s IH]; intros i Hf; [reflexivity|].
  apply find_from_None in Hf as [Hp Hf]. cbn [Py.replace_from].
  rewrite Hp. f_equal. now apply (IH (S i)).
Qed.

(** When the first occurrence is at the very end, deleting the occurrences
    leaves what precedes it. *)
Lemma replace_from_only_last (c : ascii) (old v : string) (i : nat) :
  Py.find_from (String c old) (v +:+ String c old) i
  = Some (i + String.length v)%nat ->
  Py.replace_from (String c old) EmptyString 0 (v +:+ String c old) = v.
Proof.
  revert i. induction v as [|a v IH]; intros i Hf.
  - rewrite app_empty_l. rewrite <- (app_empty_r (String c old)) at 2.
    now rewrite replace_from_head.
  - rewrite app_String in *. cbn [Py.find_from Py.replace_from] in *.
    destruct (String.prefix (String c old) (String a (v +:+ String c old))).
    + injection Hf as Hf. cbn [String.length] in Hf. lia.
    + f_equal. apply (IH (S i)). rewrite Hf. f_equal. cbn [String.length]. lia.
Qed.

Lemma getVersion_template (item : Item) (v : string) :
  Title item = "Lync " +:+ v +:+ " Update" ->
  Py.find "Lync " (v +:+ " Update") = None ->
  Py.find " Update" (v +:+ " Update") = Some (String.length v) ->
  getVersion item = v.
Proof.
  intros Ht Hstart Hend.
  unfold getVersion, TITLE_START, TITLE_END, Py.replace. rewrite Ht.
  rewrite replace_from_head, app_empty_l.
  rewrite (replace_from_absent _ _ _ 0%nat Hstart).
  now apply (replace_from_only_last _ _ _ 0%nat).
Qed.

Lemma find_from_dotted_number (v : string) (i : nat) :
  is_dotted_number v = true ->
  Py.find_from "Lync " (v +:+ " Update") i = None
  /\ Py.find_from " Update" (v +:+ " Update") i = Some (i + String.length v)%nat.
Proof.
  revert i. induction v as [|c v IH]; intros i Hv.
  - split; [reflexivity|]. cbn. f_equal. lia.
  - cbn [is_dotted_number] in Hv. apply andb_prop in Hv as [Hc Hv].
    destruct (IH (S i) Hv) as [IH1 IH2]. rewrite app_String.
    cbn [Py.find_from]. rewrite !prefix_String.
    destruct (ascii_dec "L" c) as [<-|_]; [discriminate Hc|].
    destruct (ascii_dec " " c) as [<-|_]; [discriminate Hc|].
    split; [exact IH1|]. rewrite IH2. f_equal. cbn [String.length]. lia.
Qed.

(** The titles of the feed: a version made of digits and dots is extracted
    as it stands. *)
Lemma getVersion_dotted_number (item : Item) (v : string) :
  Title item = "Lync " +:+ v +:+ " Update" ->
  is_dotted_number v = true ->
  getVersion item = v.
Proof.
  intros Ht Hv. destruct (find_from_dotted_number v 0 Hv) as [H1 H2].
  now apply getVersion_template.
Qed.

(** C8 (amended).  For a title "Lync " + v + " Update" in which "Lync " does
    not occur after the leading prefix and " Update" occurs nowhere before
    the trailing suffix, the extracted version is [v]: the title with the
    leading prefix and the trailing suffix removed. *)
Theorem getVersion_of_template (item : Item) (v : string) :
  Title item = "Lync " +:+ v +:+ " Update" ->
  Py.find "Lync " (v +:+ " Update") = None ->
  Py.find " Update" (v +:+ " Update") = Some (String.length v) ->
  getVersion item = v /\ spec_version_of_title (Title item) = v.
Proof.
  intros Ht Hstart Hend. split.
  - now apply getVersion_template.
  - unfold spec_version_of_title. rewrite Ht.
    now rewrite remove_prefix_app, remove_suffix_app.
Qed.

Lemma getVersion_of_template_witness :
  getVersion sample_1443 = "14.4.3"
  /\ spec_version_of_title (Title sample_1443) = "14.4.3".
Proof.
  apply (getVersion_of_template sample_1443 "14.4.3"); reflexivity.
Defined.

(** C8 (counterexample).  Every occurrence of the two literals is deleted,
    wherever it is: in "Lync Lync 1 Update" the text between the leading
    prefix and the trailing suffix is "Lync 1", and the extracted version
    is "1". *)
Lemma getVersion_deletes_inner_occurrences :
  ~ (forall item : Item, getVersion item = spec_version_of_title (Title item)).
Proof.
  intros Hall.
  specialize (Hall (sample_item "Lync Lync 1 Update" 0 (OSInt 0) (OSInt 0) None)).
  vm_compute in Hall. discriminate Hall.
Qed.

Example getVersion_inner_occurrence :
  getVersion (sample_item "Lync Lync 1 Update" 0 (OSInt 0) (OSInt 0) None) = "1"
  /\ spec_version_of_title "Lync Lync 1 Update" = "Lync 1".
Proof. split; reflexivity. Qed.

(** ** PackageInfoAssembler: get_lyncInstaller_info *)

Section Run.
Context {K : Type} (LooseVersion : string -> K) (lv_le : K -> K -> bool).
Context (download : string -> list (string * string) -> string + string).
Context (readPlistFromString : string -> result (list Item)).

(** Once the item is selected, the rest of the body either completes or
    raises with the environment in which only [url] and [pkg_name] have
    been written. *)
Lemma publish_item_cases (item : Item) (st : state) :
  (exists st', publish_item LooseVersion lv_le item st = (st', Return tt))
  \/ (exists e notes,
        publish_item LooseVersion lv_le item st
        = (mkState (set_pkg_name (Payload item)
                      (set_url (Location item) (env st))) notes,
           Raise e)).
Proof.
  unfold publish_item, mbind, M_bind, mret, M_ret, modify_env, get_env,
    output, lift.
  cbn [env notices url set_pkg_name set_url].
  destruct (valueToOSVersionString (Max_OS item)) as [max_os|e];
    [|right; eauto].
  destruct (valueToOSVersionString (Min_OS item)) as [min_os|e];
    [|right; eauto].
  destruct (getInstallsItems item) as [installs_items|e]; [|right; eauto].
  destruct (getRequiresFromUpdateItem _ _ _ item) as [requires|e];
    [|right; eauto].
  destruct requires as [[|first l]|];
    [| destruct (Py.split "-" first !! 1%nat) as [v|]; [|right; eauto] |];
    destruct installs_items as [[|d ds]|];
    destruct (negb (min_os =? "0.0.0")%string),
             (negb (max_os =? "0.0.0")%string);
    cbn [env notices];
    repeat (rewrite lookup_insert_ne by done); rewrite lookup_insert_eq;
    cbn [env additional_pkginfo set_display_name set_additional_pkginfo];
    left; eauto.
Qed.

Lemma get_lyncInstaller_info_selected
    (st : state) (data : string) (metadata : list Item) (item : Item) :
  download (feed_url (env st)) headers = inr data ->
  readPlistFromString data = Return metadata ->
  select_item metadata (version_selector (env st)) = Return item ->
  get_lyncInstaller_info LooseVersion lv_le download readPlistFromString st
  = publish_item LooseVersion lv_le item st.
Proof.
  intros Hdl Hparse Hsel.
  unfold get_lyncInstaller_info, mbind, M_bind, get_env, lift.
  now rewrite Hdl, Hparse, Hsel.
Qed.

End Run.

(** C9 (amended).  When a stage that follows the selection of the entry
    fails, the run leaves the environment with [url] and [pkg_name] written
    from the selected entry and with everything else as it was: neither
    [additional_pkginfo] nor [display_name] is written, so no partial
    pkginfo record is handed to the host. *)
Theorem get_lyncInstaller_info_failure_after_selection
    {K : Type} (LooseVersion : string -> K) (lv_le : K -> K -> bool)
    (download : string -> list (string * string) -> string + string)
    (readPlistFromString : string -> result (list Item))
    (st st' : state) (e : exception)
    (data : string) (metadata : list Item) (item : Item) :
  download (feed_url (env st)) headers = inr data ->
  readPlistFromString data = Return metadata ->
  select_item metadata (version_selector (env st)) = Return item ->
  get_lyncInstaller_info LooseVersion lv_le download readPlistFromString st
  = (st', Raise e) ->
  env st' = set_pkg_name (Payload item) (set_url (Location item) (env st))
  /\ url (env st') = Some (Location item)
  /\ pkg_name (env st') = Some (Payload item)
  /\ additional_pkginfo (env st') = additional_pkginfo (env st)
  /\ display_name (env st') = display_name (env st).
Proof.
  intros Hdl Hparse Hsel Hrun.
  rewrite (get_lyncInstaller_info_selected _ _ _ _ _ _ _ _ Hdl Hparse Hsel)
    in Hrun.
  destruct (publish_item_cases LooseVersion lv_le item st)
    as [[st'' Hok]|(e' & notes & Hfail)].
  - rewrite Hok in Hrun. discriminate Hrun.
  - rewrite Hfail in Hrun. injection Hrun as <- _. repeat split.
Qed.

Lemma get_lyncInstaller_info_failure_after_selection_witness :
  let st' :=
    (get_lyncInstaller_info Distutils.LooseVersion Distutils.le
       (sample_download "<plist/>")
       (sample_readPlistFromString [sample_1443; sample_bad_os])
       (mkState sample_env [])).1 in
  env st' = set_pkg_name (Payload sample_bad_os)
              (set_url (Location sample_bad_os) sample_env)
  /\ url (env st') = Some (Location sample_bad_os)
  /\ pkg_name (env st') = Some (Payload sample_bad_os)
  /\ additional_pkginfo (env st') = additional_pkginfo sample_env
  /\ display_name (env st') = display_name sample_env.
Proof.
  apply (get_lyncInstaller_info_failure_after_selection
           Distutils.LooseVersion Distutils.le
           (sample_download "<plist/>")
           (sample_readPlistFromString [sample_1443; sample_bad_os])
           (mkState sample_env []) _
           (ProcessorError (Msg "Unexpected value in version: 0xzz"))
           "<plist/>" [sample_1443; sample_bad_os] sample_bad_os);
    reflexivity.
Defined.

(** C9 (counterexample).  The entry selected from the sample feed has a
    [Max OS] that does not decode; the run fails after the selection, and
    [url] and [pkg_name], unset before the run, are set after it. *)
Lemma get_lyncInstaller_info_exposes_url_on_failure :
  ~ (forall (download : string -> list (string * string) -> string + string)
            (readPlistFromString : string -> result (list Item))
            (st st' : state) (e : exception)
            (data : string) (metadata : list Item) (item : Item),
       download (feed_url (env st)) headers = inr data ->
       readPlistFromString data = Return metadata ->
       select_item metadata (version_selector (env st)) = Return item ->
       get_lyncInstaller_info Distutils.LooseVersion Distutils.le
         download readPlistFromString st = (st', Raise e) ->
       url (env st') = url (env st)
       /\ pkg_name (env st') = pkg_name (env st)
       /\ display_name (env st') = display_name (env st)
       /\ additional_pkginfo (env st') = additional_pkginfo (env st)).
Proof.
  intros Hall.
  destruct (Hall (sample_download "<plist/>")
                 (sample_readPlistFromString [sample_1443; sample_bad_os])
                 (mkState sample_env [])
                 (mkState (set_pkg_name (Payload sample_bad_os)
                             (set_url (Location sample_bad_os) sample_env))
                          [Notice "Found URL https://download.example/Lync 14.4.4 Update";
                           Notice "Got update: 'Lync 14.4.4 Update'"])
                 (ProcessorError (Msg "Unexpected value in version: 0xzz"))
                 "<plist/>" [sample_1443; sample_bad_os] sample_bad_os)
    as [Hurl _]; try reflexivity.
  discriminate Hurl.
Qed.

Example get_lyncInstaller_info_requires :
  get_lyncInstaller_info Distutils.LooseVersion Distutils.le
    (sample_download "<plist/>") (sample_readPlistFromString [sample_1442])
    (mkState sample_env [])
  = (mkState
       (set_display_name "Lync 14.4.2 Update"
          (set_additional_pkginfo
             (<["name" := PkgStr "Lync_Installer"]>
              (<["requires" := PkgRequires ["Lync_Installer-14.0.2"]]>
              (<["installs" := PkgInstalls [installs_item sample_1442]]>
              (<["minimum_os_version" := PkgStr "10.5.8"]>
              (<["display_name" := PkgStr "Lync 14.4.2 Update"]>
              (<["description" := PkgStr "<html>An update</html>"]> ∅))))))
             (set_pkg_name "Lync Installer.pkg"
                (set_url "https://download.example/Lync 14.4.2 Update"
                   sample_env))))
       [Notice "Found URL https://download.example/Lync 14.4.2 Update";
        Notice "Got update: 'Lync 14.4.2 Update'";
        Notice "Update requires previous update version 14.0.2";
        NoticePkginfo "Additional pkginfo: "
          (<["name" := PkgStr "Lync_Installer"]>
           (<["requires" := PkgRequires ["Lync_Installer-14.0.2"]]>
           (<["installs" := PkgInstalls [installs_item sample_1442]]>
           (<["minimum_os_version" := PkgStr "10.5.8"]>
           (<["display_name" := PkgStr "Lync 14.4.2 Update"]>
           (<["description" := PkgStr "<html>An update</html>"]> ∅))))))],
     Return tt).
Proof. vm_compute. reflexivity. Qed.

Example get_lyncInstaller_info_completes :
  let st' :=
    (get_lyncInstaller_info Distutils.LooseVersion Distutils.le
       (sample_download "<plist/>")
       (sample_readPlistFromString [sample_1443; sample_1442])
       (mkState sample_env [])).1 in
  url (env st') = Some "https://download.example/Lync 14.4.3 Update"
  /\ pkg_name (env st') = Some "Lync Installer.pkg"
  /\ display_name (env st') = Some "Lync 14.4.3 Update"
  /\ additional_pkginfo (env st')
     = Some (<["name" := PkgStr "Lync_Installer"]>
             (<["installs" := PkgInstalls [installs_item sample_1443]]>
             (<["minimum_os_version" := PkgStr "10.5.8"]>
             (<["display_name" := PkgStr "Lync 14.4.3 Update"]>
             (<["description" := PkgStr "<html>An update</html>"]> ∅))))).
Proof. repeat split; reflexivity. Qed.

(* ================================================================== *)
(** * Further properties of the processor *)

(** ** TriggerValidator: sanityCheckExpectedTriggers *)

(** X1.  The outcomes of the check.  It passes exactly when the trigger
    condition is ["and", "Lync"] and the triggers have the key "Lync".  A
    condition of another shape is reported with the title and the condition;
    a missing "Lync" trigger is reported with the title; and an entry with
    no trigger condition at all ends in a KeyError, raised while the report
    is being formatted. *)
Theorem sanityCheckExpectedTriggers_outcomes (item : Item) :
  (sanityCheckExpectedTriggers item = Return tt <->
   Trigger_Condition item = Some ["and"; "Lync"]
   /\ is_Some (triggers_of item !! "Lync"))
  /\ (Trigger_Condition item = None ->
      sanityCheckExpectedTriggers item = Raise (KeyError "Trigger Condition"))
  /\ (forall cond,
        Trigger_Condition item = Some cond -> cond <> ["and"; "Lync"] ->
        sanityCheckExpectedTriggers item
        = Raise (ProcessorError
                   (MsgList ("Unexpected Trigger Condition in item "
                             +:+ Title item +:+ ": ") cond)))
  /\ (Trigger_Condition item = Some ["and"; "Lync"] ->
      triggers_of item !! "Lync" = None ->
      sanityCheckExpectedTriggers item
      = Raise (ProcessorError
                 (Msg ("Missing expected MCP Trigger in item " +:+ Title item)))).
Proof.
  split; [apply sanityCheckExpectedTriggers_passes|].
  unfold sanityCheckExpectedTriggers. repeat split.
  - intros ->. reflexivity.
  - intros cond -> Hne. rewrite bool_decide_eq_false_2 by congruence.
    reflexivity.
  - intros -> ->. reflexivity.
Qed.

(** ** The derivations and the check *)

Lemma getInstallsItems_shape (item : Item)
    (installs : option (list (gmap string string))) :
  getInstallsItems item = Return installs ->
  installs = None \/ installs = Some [installs_item item].
Proof.
  unfold getInstallsItems.
  destruct (sanityCheckExpectedTriggers item); [|discriminate].
  cbn [mbind result_bind]. case_bool_decide; intros [= <-]; auto.
Qed.

Lemma getInstallsItems_Raise (item : Item) (e : exception) :
  getInstallsItems item = Raise e -> sanityCheckExpectedTriggers item = Raise e.
Proof.
  unfold getInstallsItems.
  destruct (sanityCheckExpectedTriggers item) as [[]|e']; [|now intros [= ->]].
  cbn [mbind result_bind]. case_bool_decide; discriminate.
Qed.

Lemma getRequiresFromUpdateItem_Return
    {K : Type} (LooseVersion : string -> K) (lv_le : K -> K -> bool)
    (env : Env) (item : Item) (requires : option (list string)) :
  getRequiresFromUpdateItem LooseVersion lv_le env item = Return requires ->
  requires = None
  \/ exists m,
       In m (mcp_versions_of item) /\ m <> "14.0.0"
       /\ requires = Some [default MUNKI_UPDATE_NAME (munki_update_name env)
                           +:+ "-" +:+ m].
Proof.
  unfold getRequiresFromUpdateItem.
  destruct (sanityCheckExpectedTriggers item); [|discriminate].
  cbn [mbind result_bind].
  destruct (mcp_versions_of item) as [|v versions] eqn:Hv;
    [intros [= <-]; now left|].
  destruct (Py.sorted lv_le LooseVersion (v :: versions)) as [|m rest] eqn:Hs;
    [discriminate|].
  destruct (String.eqb_spec m "14.0.0") as [->|Hm]; intros [= <-]; [now left|].
  right. exists m. repeat split; [|exact Hm].
  eapply Permutation_in; [apply (sorted_Permutation lv_le LooseVersion)|].
  rewrite Hs. now left.
Qed.

(** X2.  Both derivations run the check of the triggers first: when the
    check raises, each raises the same exception, and [getInstallsItems]
    raises in no other way.  What they return has one shape only:
    [getInstallsItems] returns None or the one descriptor, and
    [getRequiresFromUpdateItem] returns None or one key "<name>-<m>" for a
    version [m] of the list other than "14.0.0", never an empty list. *)
Theorem derivations_run_check_first
    {K : Type} (LooseVersion : string -> K) (lv_le : K -> K -> bool)
    (env : Env) (item : Item) :
  (forall e,
     sanityCheckExpectedTriggers item = Raise e ->
     getInstallsItems item = Raise e
     /\ getRequiresFromUpdateItem LooseVersion lv_le env item = Raise e)
  /\ (forall e,
        getInstallsItems item = Raise e ->
        sanityCheckExpectedTriggers item = Raise e)
  /\ (forall installs,
        getInstallsItems item = Return installs ->
        installs = None \/ installs = Some [installs_item item])
  /\ (forall requires,
        getRequiresFromUpdateItem LooseVersion lv_le env item
        = Return requires ->
        requires = None
        \/ exists m,
             In m (mcp_versions_of item) /\ m <> "14.0.0"
             /\ requires
                = Some [default MUNKI_UPDATE_NAME (munki_update_name env)
                        +:+ "-" +:+ m]).
Proof.
  split; [|split; [|split]].
  - intros e He. unfold getInstallsItems, getRequiresFromUpdateItem.
    rewrite He. split; reflexivity.
  - apply getInstallsItems_Raise.
  - apply getInstallsItems_shape.
  - apply getRequiresFromUpdateItem_Return.
Qed.

(** ** Failures before the selection *)

(** X3.  A failure of the download, of the parsing, or of the selection ends the
    run with the state it started from: nothing is written to the
    environment and no notice is emitted.  A download failure is re-raised
    as the ProcessorError "Can't download <url>: <error>". *)
Theorem get_lyncInstaller_info_failure_before_selection
    {K : Type} (LooseVersion : string -> K) (lv_le : K -> K -> bool)
    (download : string -> list (string * string) -> string + string)
    (readPlistFromString : string -> result (list Item))
    (st : state) :
  (forall err,
     download (feed_url (env st)) headers = inl err ->
     get_lyncInstaller_info LooseVersion lv_le download readPlistFromString st
     = (st, Raise (ProcessorError
                     (Msg ("Can't download " +:+ feed_url (env st)
                           +:+ ": " +:+ err)))))
  /\ (forall data e,
        download (feed_url (env st)) headers = inr data ->
        readPlistFromString data = Raise e ->
        get_lyncInstaller_info LooseVersion lv_le download readPlistFromString st
        = (st, Raise e))
  /\ (forall data metadata e,
        download (feed_url (env st)) headers = inr data ->
        readPlistFromString data = Return metadata ->
        select_item metadata (version_selector (env st)) = Raise e ->
        get_lyncInstaller_info LooseVersion lv_le download readPlistFromString st
        = (st, Raise e)).
Proof.
  unfold get_lyncInstaller_info, mbind, M_bind, get_env, lift.
  repeat split.
  - intros err ->. reflexivity.
  - intros data e -> ->. reflexivity.
  - intros data metadata e -> -> ->. reflexivity.
Qed.

(** ** The run after the selection *)

(** *** Pieces of [str.split] *)

Lemma split_nonempty (sep : ascii) (s : string) : Py.split sep s <> [].
Proof.
  destruct s as [|c s]; cbn [Py.split]; [discriminate|].
  destruct (Ascii.eqb c sep); [discriminate|].
  destruct (Py.split sep s); discriminate.
Qed.

(** A separator in the string gives at least two pieces. *)
Lemma split_second (sep : ascii) (a b : string) :
  is_Some (Py.split sep (a +:+ String sep b) !! 1%nat).
Proof.
  induction a as [|c a IH].
  - rewrite app_empty_l. cbn [Py.split]. rewrite Ascii.eqb_refl.
    pose proof (split_nonempty sep b).
    destruct (Py.split sep b); [contradiction|]. now eexists.
  - rewrite app_String. cbn [Py.split]. destruct (Ascii.eqb c sep).
    + pose proof (split_nonempty sep (a +:+ String sep b)).
      destruct (Py.split sep (a +:+ String sep b)); [contradiction|].
      now eexists.
    + destruct (Py.split sep (a +:+ String sep b)) as [|p rest];
        [now destruct IH|exact IH].
Qed.

(** Before the first separator the string is one piece. *)
Lemma split_first (sep : ascii) (a b : string) (i : nat) :
  Py.find_from (String sep EmptyString) a i = None ->
  Py.split sep (a +:+ String sep b) = a :: Py.split sep b.
Proof.
  revert i. induction a as [|c a IH]; intros i Hf.
  - rewrite app_empty_l. cbn [Py.split]. now rewrite Ascii.eqb_refl.
  - apply find_from_None in Hf as [Hp Hf]. rewrite app_String.
    cbn [Py.split]. rewrite prefix_String in Hp.
    destruct (Ascii.eqb_spec c sep) as [->|Hne].
    + destruct (ascii_dec sep sep); [|contradiction].
      now rewrite prefix_empty in Hp.
    + now rewrite (IH (S i) Hf).
Qed.

Lemma split_absent (sep : ascii) (s : string) (i : nat) :
  Py.find_from (String sep EmptyString) s i = None -> Py.split sep s = [s].
Proof.
  revert i. induction s as [|c s IH]; intros i Hf; [reflexivity|].
  apply find_from_None in Hf as [Hp Hf]. cbn [Py.split].
  rewrite prefix_String in Hp.
  destruct (Ascii.eqb_spec c sep) as [->|Hne].
  - destruct (ascii_dec sep sep); [|contradiction].
    now rewrite prefix_empty in Hp.
  - now rewrite (IH (S i) Hf).
Qed.

(** *** What the derivations read *)

(** The derivation reads the environment for the update name only. *)
Lemma getRequiresFromUpdateItem_env
    {K : Type} (LooseVersion : string -> K) (lv_le : K -> K -> bool)
    (env env' : Env) (item : Item) :
  munki_update_name env = munki_update_name env' ->
  getRequiresFromUpdateItem LooseVersion lv_le env item
  = getRequiresFromUpdateItem LooseVersion lv_le env' item.
Proof. intros Hn. unfold getRequiresFromUpdateItem. now rewrite Hn. Qed.

Section AfterSelection.
Context {K : Type} (LooseVersion : string -> K) (lv_le : K -> K -> bool).

(** The state and the record that a completed run leaves. *)
Lemma publish_item_Return (item : Item) (st st' : state) :
  publish_item LooseVersion lv_le item st = (st', Return tt) ->
  exists pkginfo max_os min_os installs requires,
    env st' = set_display_name (Title item)
                (set_additional_pkginfo pkginfo
                   (set_pkg_name (Payload item)
                      (set_url (Location item) (env st))))
    /\ valueToOSVersionString (Max_OS item) = Return max_os
    /\ valueToOSVersionString (Min_OS item) = Return min_os
    /\ getInstallsItems item = Return installs
    /\ getRequiresFromUpdateItem LooseVersion lv_le (env st) item
       = Return requires
    /\ pkginfo !! "name"
       = Some (PkgStr (default MUNKI_UPDATE_NAME (munki_update_name (env st))))
    /\ pkginfo !! "display_name" = Some (PkgStr (Title item))
    /\ pkginfo !! "description"
       = Some (PkgStr ("<html>" +:+ Short_Description item +:+ "</html>"))
    /\ pkginfo !! "maximum_os_version"
       = (if String.eqb max_os "0.0.0" then None else Some (PkgStr max_os))
    /\ pkginfo !! "minimum_os_version"
       = (if String.eqb min_os "0.0.0" then None else Some (PkgStr min_os))
    /\ pkginfo !! "installs" = PkgInstalls <$> installs
    /\ pkginfo !! "requires" = PkgRequires <$> requires
    /\ (forall key, is_Some (pkginfo !! key) ->
         In key ["name"; "display_name"; "description"; "maximum_os_version";
                 "minimum_os_version"; "installs"; "requires"])
    /\ notices st'
       = (notices st
          ++ [Notice ("Found URL " +:+ Location item);
              Notice ("Got update: '" +:+ Title item +:+ "'")]
          ++ match requires with
             | Some (first :: _) =>
                 match Py.split "-" first !! 1%nat with
                 | Some v =>
                     [Notice ("Update requires previous update version " +:+ v)]
                 | None => []
                 end
             | _ => []
             end
          ++ [NoticePkginfo "Additional pkginfo: " pkginfo])%list.
Proof.
  intros Hrun.
  unfold publish_item, mbind, M_bind, mret, M_ret, modify_env, get_env,
    output, lift in Hrun.
  cbn [env notices url set_pkg_name set_url] in Hrun.
  rewrite (getRequiresFromUpdateItem_env LooseVersion lv_le _ (env st) item)
    in Hrun by reflexivity.
  destruct (valueToOSVersionString (Max_OS item)) as [max_os|e];
    [|discriminate Hrun].
  destruct (valueToOSVersionString (Min_OS item)) as [min_os|e];
    [|discriminate Hrun].
  destruct (getInstallsItems item) as [installs|e] eqn:Hi;
    [|discriminate Hrun].
  destruct (getRequiresFromUpdateItem _ _ _ item) as [requires|e] eqn:Hr;
    [|discriminate Hrun].
  apply getInstallsItems_shape in Hi as Hi'.
  apply getRequiresFromUpdateItem_Return in Hr as Hr'.
  destruct Hi' as [-> | ->], Hr' as [-> | (m & _ & _ & ->)];
    try (destruct (Py.split "-" _ !! 1%nat) as [v|] eqn:Hv;
         [|discriminate Hrun]);
    destruct (String.eqb min_os "0.0.0") eqn:Hmin,
             (String.eqb max_os "0.0.0") eqn:Hmax;
    cbn [negb env notices] in Hrun;
    repeat (rewrite lookup_insert_ne in Hrun by (clear -st; done));
    rewrite lookup_insert_eq in Hrun;
    cbn [env additional_pkginfo munki_update_name set_pkg_name set_url
         set_display_name set_additional_pkginfo] in Hrun;
    injection Hrun as <-; eexists _, max_os, min_os, _, _;
    rewrite Hmin, Hmax;
    (split; [reflexivity|]);
    repeat (split; [solve [reflexivity | now simplify_map_eq]|]);
    (split; [|cbn [notices]; rewrite ?Hv, <- ?List.app_assoc; reflexivity]);
    intros key [x Hx];
    repeat (apply lookup_insert_Some in Hx as [[<- _]|[_ Hx]];
            [cbn; tauto|]);
    now rewrite lookup_empty in Hx.
Qed.
End AfterSelection.

(** X4.  A run that completes writes the four output variables, [url],
    [pkg_name] and [display_name] from the location, the payload name and
    the title of the selected entry, and leaves the input variables as they
    were.  The pkginfo record always carries the update name (from the
    environment, or the default "Lync_Installer"), the title as display
    name and the short description wrapped in <html> tags. *)
Theorem get_lyncInstaller_info_outputs
    {K : Type} (LooseVersion : string -> K) (lv_le : K -> K -> bool)
    (download : string -> list (string * string) -> string + string)
    (readPlistFromString : string -> result (list Item))
    (st st' : state) (data : string) (metadata : list Item) (item : Item) :
  download (feed_url (env st)) headers = inr data ->
  readPlistFromString data = Return metadata ->
  select_item metadata (version_selector (env st)) = Return item ->
  get_lyncInstaller_info LooseVersion lv_le download readPlistFromString st
  = (st', Return tt) ->
  url (env st') = Some (Location item)
  /\ pkg_name (env st') = Some (Payload item)
  /\ display_name (env st') = Some (Title item)
  /\ base_url (env st') = base_url (env st)
  /\ culture_code (env st') = culture_code (env st)
  /\ version (env st') = version (env st)
  /\ munki_update_name (env st') = munki_update_name (env st)
  /\ exists pkginfo,
       additional_pkginfo (env st') = Some pkginfo
       /\ pkginfo !! "name"
          = Some (PkgStr (default MUNKI_UPDATE_NAME
                                  (munki_update_name (env st))))
       /\ pkginfo !! "display_name" = Some (PkgStr (Title item))
       /\ pkginfo !! "description"
          = Some (PkgStr ("<html>" +:+ Short_Description item +:+ "</html>")).
Proof.
  intros Hdl Hparse Hsel Hrun.
  rewrite (get_lyncInstaller_info_selected _ _ _ _ _ _ _ _ Hdl Hparse Hsel)
    in Hrun.
  apply publish_item_Return in Hrun
    as (pkginfo & max_os & min_os & installs & requires & -> & _ & _ & _ & _
        & Hname & Htitle & Hdesc & _).
  repeat (split; [reflexivity|]). exists pkginfo. auto.
Qed.

Lemma get_lyncInstaller_info_outputs_witness :
  let st' :=
    (get_lyncInstaller_info Distutils.LooseVersion Distutils.le
       (sample_download "<plist/>")
       (sample_readPlistFromString [sample_1443; sample_1442])
       (mkState sample_env [])).1 in
  url (env st') = Some (Location sample_1443)
  /\ pkg_name (env st') = Some (Payload sample_1443)
  /\ display_name (env st') = Some (Title sample_1443).
Proof.
  intros st'.
  destruct (get_lyncInstaller_info_outputs
              Distutils.LooseVersion Distutils.le
              (sample_download "<plist/>")
              (sample_readPlistFromString [sample_1443; sample_1442])
              (mkState sample_env []) st'
              "<plist/>" [sample_1443; sample_1442] sample_1443
              eq_refl eq_refl eq_refl eq_refl)
    as (Hurl & Hpkg & Hname & _).
  repeat split; assumption.
Defined.

(** X5.  In the pkginfo record of a completed run, [maximum_os_version] and
    [minimum_os_version] are present exactly when the decoded bound is not
    "0.0.0", [installs] exactly when [getInstallsItems] returned a
    descriptor and [requires] exactly when [getRequiresFromUpdateItem]
    returned a key; the record has no key beyond these four and [name],
    [display_name] and [description]. *)
Theorem get_lyncInstaller_info_optional_fields
    {K : Type} (LooseVersion : string -> K) (lv_le : K -> K -> bool)
    (download : string -> list (string * string) -> string + string)
    (readPlistFromString : string -> result (list Item))
    (st st' : state) (data : string) (metadata : list Item) (item : Item) :
  download (feed_url (env st)) headers = inr data ->
  readPlistFromString data = Return metadata ->
  select_item metadata (version_selector (env st)) = Return item ->
  get_lyncInstaller_info LooseVersion lv_le download readPlistFromString st
  = (st', Return tt) ->
  exists pkginfo max_os min_os installs requires,
    additional_pkginfo (env st') = Some pkginfo
    /\ valueToOSVersionString (Max_OS item) = Return max_os
    /\ valueToOSVersionString (Min_OS item) = Return min_os
    /\ getInstallsItems item = Return installs
    /\ getRequiresFromUpdateItem LooseVersion lv_le (env st) item
       = Return requires
    /\ pkginfo !! "maximum_os_version"
       = (if String.eqb max_os "0.0.0" then None else Some (PkgStr max_os))
    /\ pkginfo !! "minimum_os_version"
       = (if String.eqb min_os "0.0.0" then None else Some (PkgStr min_os))
    /\ pkginfo !! "installs" = PkgInstalls <$> installs
    /\ pkginfo !! "requires" = PkgRequires <$> requires
    /\ forall key, is_Some (pkginfo !! key) ->
         In key ["name"; "display_name"; "description"; "maximum_os_version";
                 "minimum_os_version"; "installs"; "requires"].
Proof.
  intros Hdl Hparse Hsel Hrun.
  rewrite (get_lyncInstaller_info_selected _ _ _ _ _ _ _ _ Hdl Hparse Hsel)
    in Hrun.
  apply publish_item_Return in Hrun
    as (pkginfo & max_os & min_os & installs & requires & -> & Hmax & Hmin
        & Hi & Hr & _ & _ & _ & Hkmax & Hkmin & Hki & Hkr & Hkeys & _).
  exists pkginfo, max_os, min_os, installs, requires. repeat split; assumption.
Qed.

Lemma get_lyncInstaller_info_optional_fields_witness :
  let st' :=
    (get_lyncInstaller_info Distutils.LooseVersion Distutils.le
       (sample_download "<plist/>")
       (sample_readPlistFromString [sample_1443; sample_1442])
       (mkState sample_env [])).1 in
  exists pkginfo,
    additional_pkginfo (env st') = Some pkginfo
    /\ forall key, is_Some (pkginfo !! key) ->
         In key ["name"; "display_name"; "description"; "maximum_os_version";
                 "minimum_os_version"; "installs"; "requires"].
Proof.
  intros st'.
  destruct (get_lyncInstaller_info_optional_fields
              Distutils.LooseVersion Distutils.le
              (sample_download "<plist/>")
              (sample_readPlistFromString [sample_1443; sample_1442])
              (mkState sample_env []) st'
              "<plist/>" [sample_1443; sample_1442] sample_1443
              eq_refl eq_refl eq_refl eq_refl)
    as (pkginfo & _ & _ & _ & _ & Hp & _ & _ & _ & _ & _ & _ & _ & _ & Hkeys).
  exists pkginfo. split; assumption.
Defined.

(** X6.  The notices of a completed run, in order: the URL found, the title of
    the update, the required earlier version when there is one, and the
    pkginfo record.  When neither the update name nor the required version
    has a "-", the third notice cites that version. *)
Theorem get_lyncInstaller_info_notices
    {K : Type} (LooseVersion : string -> K) (lv_le : K -> K -> bool)
    (download : string -> list (string * string) -> string + string)
    (readPlistFromString : string -> result (list Item))
    (st st' : state) (data : string) (metadata : list Item) (item : Item) :
  download (feed_url (env st)) headers = inr data ->
  readPlistFromString data = Return metadata ->
  select_item metadata (version_selector (env st)) = Return item ->
  get_lyncInstaller_info LooseVersion lv_le download readPlistFromString st
  = (st', Return tt) ->
  exists pkginfo requires about_requires,
    additional_pkginfo (env st') = Some pkginfo
    /\ getRequiresFromUpdateItem LooseVersion lv_le (env st) item
       = Return requires
    /\ notices st'
       = (notices st
          ++ [Notice ("Found URL " +:+ Location item);
              Notice ("Got update: '" +:+ Title item +:+ "'")]
          ++ about_requires
          ++ [NoticePkginfo "Additional pkginfo: " pkginfo])%list
    /\ (requires = None -> about_requires = [])
    /\ (forall m,
          requires = Some [default MUNKI_UPDATE_NAME (munki_update_name (env st))
                           +:+ "-" +:+ m] ->
          Py.find "-" (default MUNKI_UPDATE_NAME (munki_update_name (env st)))
          = None ->
          Py.find "-" m = None ->
          about_requires
          = [Notice ("Update requires previous update version " +:+ m)]).
Proof.
  intros Hdl Hparse Hsel Hrun.
  rewrite (get_lyncInstaller_info_selected _ _ _ _ _ _ _ _ Hdl Hparse Hsel)
    in Hrun.
  apply publish_item_Return in Hrun
    as (pkginfo & max_os & min_os & installs & requires & -> & _ & _
        & _ & Hr & _ & _ & _ & _ & _ & _ & _ & _ & Hnotices).
  exists pkginfo, requires. eexists. split; [reflexivity|].
  split; [exact Hr|]. split; [exact Hnotices|]. split.
  - intros ->. reflexivity.
  - intros m -> Hname Hm.
    change ("-" +:+ m) with (String "-" m).
    rewrite (split_first "-" _ m 0%nat Hname).
    now rewrite (split_absent "-" m 0%nat Hm).
Qed.

Lemma get_lyncInstaller_info_notices_witness :
  let st' :=
    (get_lyncInstaller_info Distutils.LooseVersion Distutils.le
       (sample_download "<plist/>")
       (sample_readPlistFromString [sample_1442])
       (mkState sample_env [])).1 in
  exists pkginfo requires about_requires,
    additional_pkginfo (env st') = Some pkginfo
    /\ getRequiresFromUpdateItem Distutils.LooseVersion Distutils.le
         sample_env sample_1442 = Return requires
    /\ notices st'
       = ([]
          ++ [Notice ("Found URL " +:+ Location sample_1442);
              Notice ("Got update: '" +:+ Title sample_1442 +:+ "'")]
          ++ about_requires
          ++ [NoticePkginfo "Additional pkginfo: " pkginfo])%list
    /\ (requires = None -> about_requires = [])
    /\ (forall m,
          requires = Some [default MUNKI_UPDATE_NAME
                                   (munki_update_name sample_env)
                           +:+ "-" +:+ m] ->
          Py.find "-" (default MUNKI_UPDATE_NAME (munki_update_name sample_env))
          = None ->
          Py.find "-" m = None ->
          about_requires
          = [Notice ("Update requires previous update version " +:+ m)]).
Proof.
  intros st'.
  apply (get_lyncInstaller_info_notices
           Distutils.LooseVersion Distutils.le
           (sample_download "<plist/>")
           (sample_readPlistFromString [sample_1442])
           (mkState sample_env []) st'
           "<plist/>" [sample_1442] sample_1442);
    reflexivity.
Defined.

(** X7.  The notice about the required update takes the second piece of
    the key cut at every "-".  That piece always exists, since the key is
    "<name>-<m>".  It is the version [m] up to its first "-" when the update
    name has no "-"; when the update name is "<a>-<b>", it is [b], a piece
    of the name and not the version. *)
Theorem requires_notice_piece
    {K : Type} (LooseVersion : string -> K) (lv_le : K -> K -> bool)
    (env : Env) (item : Item) (first : string) (rest : list string) :
  getRequiresFromUpdateItem LooseVersion lv_le env item
  = Return (Some (first :: rest)) ->
  exists m,
    rest = []
    /\ first = default MUNKI_UPDATE_NAME (munki_update_name env) +:+ "-" +:+ m
    /\ is_Some (Py.split "-" first !! 1%nat)
    /\ (Py.find "-" (default MUNKI_UPDATE_NAME (munki_update_name env)) = None ->
        Py.split "-" first !! 1%nat = Py.split "-" m !! 0%nat)
    /\ (forall a b,
          default MUNKI_UPDATE_NAME (munki_update_name env) = a +:+ "-" +:+ b ->
          Py.find "-" a = None -> Py.find "-" b = None ->
          Py.split "-" first !! 1%nat = Some b).
Proof.
  intros Hr. apply getRequiresFromUpdateItem_Return in Hr
    as [[=]|(m & _ & _ & [= -> ->])].
  exists m. split; [reflexivity|]. split; [reflexivity|].
  change ("-" +:+ m) with (String "-" m). split; [apply split_second|]. split.
  - intros Hname. now rewrite (split_first "-" _ m 0%nat Hname).
  - intros a b -> Ha Hb. rewrite app_assoc.
    change ("-" +:+ b) with (String "-" b). rewrite app_String.
    rewrite (split_first "-" a _ 0%nat Ha).
    now rewrite (split_first "-" b m 0%nat Hb).
Qed.

Lemma requires_notice_piece_witness :
  exists m,
    @nil string = []
    /\ "Lync_Installer-14.0.2"
       = default MUNKI_UPDATE_NAME (munki_update_name sample_env) +:+ "-" +:+ m
    /\ is_Some (Py.split "-" "Lync_Installer-14.0.2" !! 1%nat)
    /\ (Py.find "-" (default MUNKI_UPDATE_NAME (munki_update_name sample_env))
        = None ->
        Py.split "-" "Lync_Installer-14.0.2" !! 1%nat = Py.split "-" m !! 0%nat)
    /\ (forall a b,
          default MUNKI_UPDATE_NAME (munki_update_name sample_env)
          = a +:+ "-" +:+ b ->
          Py.find "-" a = None -> Py.find "-" b = None ->
          Py.split "-" "Lync_Installer-14.0.2" !! 1%nat = Some b).
Proof.
  apply (requires_notice_piece Distutils.LooseVersion Distutils.le
           sample_env sample_1442 "Lync_Installer-14.0.2" []).
  reflexivity.
Defined.

Example requires_notice_piece_dashed_name :
  getRequiresFromUpdateItem Distutils.LooseVersion Distutils.le
    (mkEnv None None None (Some "Lync-Installer") None None None None)
    sample_1442
  = Return (Some ["Lync-Installer-14.0.2"])
  /\ Py.split "-" "Lync-Installer-14.0.2" !! 1%nat = Some "Installer".
Proof. split; reflexivity. Qed.

(** ** Ties between dates and between versions *)

Lemma insert_sorted_last {A K : Type} (le : K -> K -> bool) (key : A -> K)
    (x e : A) (l : list A) :
  last (Py.insert_sorted le key x l) = Some e ->
  (e = x /\ forall y, In y l -> le (key x) (key y) = false)
  \/ last l = Some e.
Proof.
  induction l as [|y l IH]; cbn [Py.insert_sorted].
  - intros [= <-]. left. split; [reflexivity|]. intros ? [].
  - destruct (le (key x) (key y)) eqn:Hxy.
    + rewrite last_cons_cons. now right.
    + rewrite last_cons.
      destruct (last (Py.insert_sorted le key x l)) as [e'|] eqn:Hl.
      * intros [= ->]. destruct (IH eq_refl) as [[-> Hall]|Hlast].
        -- left. split; [reflexivity|].
           intros w [<-|Hw]; [exact Hxy|now apply Hall].
        -- right. now rewrite last_cons, Hlast.
      * apply last_None in Hl. destruct l as [|z l]; [discriminate|].
        cbn [Py.insert_sorted] in Hl.
        destruct (le (key x) (key z)); discriminate.
Qed.

(** Stability: the last element of the sorted list is the last of the
    greatest elements in the order of the input. *)
Lemma sorted_last_stable {A K : Type} (le : K -> K -> bool) (key : A -> K)
    (l : list A) (e : A) :
  last (Py.sorted le key l) = Some e ->
  exists before after,
    l = (before ++ e :: after)%list
    /\ forall x, In x after -> le (key e) (key x) = false.
Proof.
  revert e. induction l as [|x l IH]; intros e; [discriminate|].
  cbn [Py.sorted]. intros Hl. apply insert_sorted_last in Hl as [[-> Hall]|Hl].
  - exists [], l. split; [reflexivity|]. intros y Hy. apply Hall.
    eapply Permutation_in; [symmetry; apply sorted_Permutation|exact Hy].
  - destruct (IH e Hl) as (before & after & -> & Hafter).
    now exists (x :: before), after.
Qed.

(** X8.  With the selector "latest", the entry returned is the last entry of the
    list that has the greatest date: every entry after it is strictly
    older, and no entry before it is newer. *)
Theorem select_item_latest_last_of_newest
    (metadata : list Item) (item : Item) :
  select_item metadata "latest" = Return item ->
  exists before after,
    metadata = (before ++ item :: after)%list
    /\ (forall x, In x after -> Date x < Date item)
    /\ (forall x, In x before -> Date x <= Date item).
Proof.
  rewrite select_item_latest.
  destruct (last (Py.sorted Z.leb Date metadata)) as [e|] eqn:Hlast;
    [|discriminate].
  intros [= ->].
  destruct (sorted_last_stable Z.leb Date metadata item Hlast)
    as (before & after & -> & Hafter).
  destruct (sorted_last_greatest Z.leb Date Zle_total Zle_trans _ _ Hlast)
    as [_ Hmax].
  exists before, after. split; [reflexivity|]. split.
  - intros x Hx. apply Hafter in Hx. apply Z.leb_gt in Hx. exact Hx.
  - intros x Hx. apply Z.leb_le, Hmax. apply in_or_app. now left.
Qed.

Lemma select_item_latest_last_of_newest_witness :
  exists before after,
    [sample_1443; sample_1443_again; sample_1442]
    = (before ++ sample_1443_again :: after)%list
    /\ (forall x, In x after -> Date x < Date sample_1443_again)
    /\ (forall x, In x before -> Date x <= Date sample_1443_again).
Proof.
  apply (select_item_latest_last_of_newest
           [sample_1443; sample_1443_again; sample_1442] sample_1443_again).
  reflexivity.
Defined.

(** X9.  The order of the version list does not matter to
    [getRequiresFromUpdateItem] as long as distinct versions of the list
    have distinct LooseVersion keys: two entries that pass the check and
    whose version lists are permutations of each other give the same
    result. *)
Theorem getRequiresFromUpdateItem_order_irrelevant
    {K : Type} (LooseVersion : string -> K) (lv_le : K -> K -> bool)
    (env : Env) (item item' : Item) :
  (forall a b, lv_le a b = true \/ lv_le b a = true) ->
  (forall a b c, lv_le a b = true -> lv_le b c = true -> lv_le a c = true) ->
  sanityCheckExpectedTriggers item = Return tt ->
  sanityCheckExpectedTriggers item' = Return tt ->
  Permutation (mcp_versions_of item) (mcp_versions_of item') ->
  (forall x y,
     In x (mcp_versions_of item) -> In y (mcp_versions_of item) ->
     lv_le (LooseVersion x) (LooseVersion y) = true ->
     lv_le (LooseVersion y) (LooseVersion x) = true -> x = y) ->
  getRequiresFromUpdateItem LooseVersion lv_le env item
  = getRequiresFromUpdateItem LooseVersion lv_le env item'.
Proof.
  intros Htotal Htrans Hc Hc' Hperm Hdistinct.
  unfold getRequiresFromUpdateItem. rewrite Hc, Hc'. cbn [mbind result_bind].
  destruct (mcp_versions_of item) as [|v l] eqn:Hv.
  { apply Permutation_nil in Hperm. now rewrite Hperm. }
  destruct (mcp_versions_of item') as [|v' l'] eqn:Hv'.
  { apply Permutation_sym, Permutation_nil in Hperm. discriminate. }
  destruct (Py.sorted lv_le LooseVersion (v :: l)) as [|m rest] eqn:Hs.
  { now apply (sorted_nonempty lv_le LooseVersion) in Hs. }
  destruct (Py.sorted lv_le LooseVersion (v' :: l')) as [|m' rest'] eqn:Hs'.
  { now apply (sorted_nonempty lv_le LooseVersion) in Hs'. }
  destruct (sorted_head_least lv_le LooseVersion Htotal Htrans _ _ _ Hs)
    as [Hin Hleast].
  destruct (sorted_head_least lv_le LooseVersion Htotal Htrans _ _ _ Hs')
    as [Hin' Hleast'].
  assert (Hin'' : In m' (v :: l))
    by (eapply Permutation_in; [symmetry; exact Hperm|exact Hin']).
  assert (m = m') as <-.
  { apply Hdistinct; [exact Hin|exact Hin''|now apply Hleast|].
    apply Hleast'. eapply Permutation_in; [exact Hperm|exact Hin]. }
  reflexivity.
Qed.

Lemma getRequiresFromUpdateItem_order_irrelevant_witness :
  getRequiresFromUpdateItem Distutils.LooseVersion Distutils.le
    sample_env sample_1442
  = getRequiresFromUpdateItem Distutils.LooseVersion Distutils.le
      sample_env sample_1442_reordered.
Proof.
  apply (getRequiresFromUpdateItem_order_irrelevant
           Distutils.LooseVersion Distutils.le
           sample_env sample_1442 sample_1442_reordered).
  - exact DistutilsFacts.le_total.
  - exact DistutilsFacts.le_trans.
  - reflexivity.
  - reflexivity.
  - apply perm_swap.
  - intros x y [<-|[<-|[]]] [<-|[<-|[]]]; try reflexivity; discriminate.
Defined.

(** ** The decoder on integers *)

Lemma In_Z_range (lo z : Z) (n : nat) :
  lo <= z < lo + Z.of_nat n -> In z (Z_range lo n).
Proof.
  intros Hz. unfold Z_range.
  replace z with (lo + Z.of_nat (Z.to_nat (z - lo))) by lia.
  apply (in_map (fun i => lo + Z.of_nat i)), in_seq. lia.
Qed.

Lemma returned_Some {A : Type} (r : result A) (a : A) :
  returned r = Some a -> r = Return a.
Proof. destruct r; [now intros [= ->]|discriminate]. Qed.

(** On an integer the decoder returns, or raises its ProcessorError. *)
Lemma valueToOSVersionString_int_None (z : Z) :
  returned (valueToOSVersionString (OSInt z)) = None ->
  valueToOSVersionString (OSInt z)
  = Raise (ProcessorError
             (Msg ("Unexpected value in version: " +:+ Py.str_of_int z))).
Proof.
  unfold valueToOSVersionString. cbn [version_str_of].
  destruct (parse_version_str _); [discriminate|reflexivity].
Qed.

(** X10.  Encoding then decoding gives the version back, for the versions with a
    two-digit major number: for [10 <= major <= 99] and minor and patch
    numbers below 16, the integer [encode_os_version major minor patch], and
    the text that [hex] prints for it, decode to "major.minor.patch". *)
Theorem valueToOSVersionString_encode (major minor patch : Z) :
  10 <= major <= 99 -> 0 <= minor <= 15 -> 0 <= patch <= 15 ->
  valueToOSVersionString (OSInt (encode_os_version major minor patch))
  = Return (format_version (major, minor, patch))
  /\ valueToOSVersionString
       (OSStr (Py.hex (encode_os_version major minor patch)))
     = Return (format_version (major, minor, patch)).
Proof.
  intros Hmajor Hminor Hpatch.
  pose (check := fun major minor patch : Z =>
    bool_decide
      (returned (valueToOSVersionString
                   (OSInt (encode_os_version major minor patch)))
       = Some (format_version (major, minor, patch)))
    && bool_decide
         (returned (valueToOSVersionString
                      (OSStr (Py.hex (encode_os_version major minor patch))))
          = Some (format_version (major, minor, patch)))).
  assert (Hall : forallb (fun major =>
                   forallb (fun minor =>
                     forallb (fun patch => check major minor patch)
                             (Z_range 0 16))
                           (Z_range 0 16))
                         (Z_range 10 90) = true)
    by (vm_compute; reflexivity).
  rewrite forallb_forall in Hall.
  specialize (Hall major (In_Z_range 10 major 90 ltac:(lia))).
  rewrite forallb_forall in Hall.
  specialize (Hall minor (In_Z_range 0 minor 16 ltac:(lia))).
  rewrite forallb_forall in Hall.
  specialize (Hall patch (In_Z_range 0 patch 16 ltac:(lia))).
  unfold check in Hall. apply andb_prop in Hall as [H1 H2].
  apply bool_decide_eq_true_1 in H1, H2.
  split; now apply returned_Some.
Qed.

Lemma valueToOSVersionString_encode_witness :
  valueToOSVersionString (OSInt (encode_os_version 10 4 11))
  = Return (format_version (10, 4, 11))
  /\ valueToOSVersionString (OSStr (Py.hex (encode_os_version 10 4 11)))
     = Return (format_version (10, 4, 11)).
Proof.
  apply (valueToOSVersionString_encode 10 4 11); lia.
Defined.

(** X11.  An integer below 0x1000 has three hexadecimal digits, since [hex]
    prints no leading zero, and the decoder reads the first two as the major
    number: for [1 <= major <= 9] the integer that encodes
    "major.minor.patch" decodes to "<major><minor>.<patch>.0" when the minor
    number is a decimal digit, and raises the ProcessorError otherwise. *)
Theorem valueToOSVersionString_encode_one_digit_major
    (major minor patch : Z) :
  1 <= major <= 9 -> 0 <= minor <= 15 -> 0 <= patch <= 15 ->
  valueToOSVersionString (OSInt (encode_os_version major minor patch))
  = if minor <=? 9
    then Return (format_version (10 * major + minor, patch, 0))
    else Raise (ProcessorError
                  (Msg ("Unexpected value in version: "
                        +:+ Py.str_of_int (encode_os_version major minor patch)))).
Proof.
  intros Hmajor Hminor Hpatch.
  pose (check := fun major minor patch : Z =>
    bool_decide
      (returned (valueToOSVersionString
                   (OSInt (encode_os_version major minor patch)))
       = if minor <=? 9
         then Some (format_version (10 * major + minor, patch, 0))
         else None)).
  assert (Hall : forallb (fun major =>
                   forallb (fun minor =>
                     forallb (fun patch => check major minor patch)
                             (Z_range 0 16))
                           (Z_range 0 16))
                         (Z_range 1 9) = true)
    by (vm_compute; reflexivity).
  rewrite forallb_forall in Hall.
  specialize (Hall major (In_Z_range 1 major 9 ltac:(lia))).
  rewrite forallb_forall in Hall.
  specialize (Hall minor (In_Z_range 0 minor 16 ltac:(lia))).
  rewrite forallb_forall in Hall.
  specialize (Hall patch (In_Z_range 0 patch 16 ltac:(lia))).
  unfold check in Hall. apply bool_decide_eq_true_1 in Hall.
  destruct (minor <=? 9).
  - now apply returned_Some.
  - now apply valueToOSVersionString_int_None.
Qed.

Lemma valueToOSVersionString_encode_one_digit_major_witness :
  valueToOSVersionString (OSInt (encode_os_version 9 5 8))
  = if 5 <=? 9
    then Return (format_version (10 * 9 + 5, 8, 0))
    else Raise (ProcessorError
                  (Msg ("Unexpected value in version: "
                        +:+ Py.str_of_int (encode_os_version 9 5 8)))).
Proof.
  apply (valueToOSVersionString_encode_one_digit_major 9 5 8); lia.
Defined.

(** X12.  A negative integer is never decoded: after the first two characters of
    "-0x..." the sequence starts with the "x", which is no digit, and the
    decoder raises its ProcessorError. *)
Theorem valueToOSVersionString_negative (z : Z) :
  z < 0 ->
  valueToOSVersionString (OSInt z)
  = Raise (ProcessorError
             (Msg ("Unexpected value in version: " +:+ Py.str_of_int z))).
Proof.
  intros Hz. apply valueToOSVersionString_int_None.
  rewrite (returned_valueToOSVersionString (OSInt z)
             (String "x" (Py.hex_digits (Z.to_N (- z))))).
  - unfold parse_version_str, Py.item, Py.slice.
    destruct (Py.hex_digits (Z.to_N (- z))) as [|c digits]; [reflexivity|].
    cbn [String.length Nat.eqb Nat.ltb Nat.leb substring Nat.sub].
    rewrite substring_0_0. reflexivity.
  - cbn [version_str_of]. unfold Py.hex.
    destruct (Z.ltb_spec z 0) as [_|Hge]; [reflexivity|lia].
Qed.

Lemma valueToOSVersionString_negative_witness :
  valueToOSVersionString (OSInt (-4184))
  = Raise (ProcessorError (Msg ("Unexpected value in version: "
                                +:+ Py.str_of_int (-4184)))).
Proof. apply (valueToOSVersionString_negative (-4184)). lia. Defined.

(** *** Bounds of the decoded numbers *)

Lemma hex_digit_value_bounds (c : ascii) (v : Z) :
  hex_digit_value c = Some v -> 0 <= v <= 15.
Proof.
  pose (P := fun c : ascii =>
    match hex_digit_value c with
    | Some v => (0 <=? v) && (v <=? 15)
    | None => true
    end).
  assert (HP : forall c, P c = true)
    by (apply all_ascii; vm_compute; reflexivity).
  specialize (HP c). unfold P in HP. intros Hv. rewrite Hv in HP. lia.
Qed.

Lemma int10_one_bounds (a : ascii) (v : Z) :
  Py.int 10 (String a EmptyString) = Some v -> 0 <= v <= 9.
Proof.
  pose (P := fun a : ascii =>
    match Py.int 10 (String a EmptyString) with
    | Some v => (0 <=? v) && (v <=? 9)
    | None => true
    end).
  assert (HP : forall a, P a = true)
    by (apply all_ascii; vm_compute; reflexivity).
  specialize (HP a). unfold P in HP. intros Hv. rewrite Hv in HP. lia.
Qed.

Lemma int10_two_bounds (a b : ascii) (v : Z) :
  Py.int 10 (String a (String b EmptyString)) = Some v -> -9 <= v <= 99.
Proof.
  pose (P := fun a b : ascii =>
    match Py.int 10 (String a (String b EmptyString)) with
    | Some v => (-9 <=? v) && (v <=? 99)
    | None => true
    end).
  assert (HP : forall a b, P a b = true).
  { intros a'. apply (all_ascii (fun b' => P a' b')). revert a'.
    apply (all_ascii (fun a' =>
      forallb (fun b' => P a' b') (List.map ascii_of_nat (seq 0 256)))).
    vm_compute. reflexivity. }
  specialize (HP a b). unfold P in HP. intros Hv. rewrite Hv in HP. lia.
Qed.

Lemma spec_digit_at_bounds (i : nat) (s : string) (v : Z) :
  spec_digit_at i s = Some v -> 0 <= v <= 15.
Proof.
  unfold spec_digit_at. destruct (String.get i s) as [c|].
  - apply hex_digit_value_bounds.
  - intros [= <-]. lia.
Qed.

Lemma spec_major_bounds (s : string) (v : Z) :
  spec_major s = Some v -> -9 <= v <= 99.
Proof.
  unfold spec_major. destruct s as [|a [|b s]]; cbn [String.length substring].
  - intros [= <-]. lia.
  - intros Hv. apply int10_one_bounds in Hv. lia.
  - rewrite substring_0_0. apply int10_two_bounds.
Qed.

(** X13.  Whatever the value, a version that the decoder returns is
    "major.minor.patch" with [-9 <= major <= 99] and with minor and patch
    numbers between 0 and 15. *)
Theorem valueToOSVersionString_bounds (value : os_value) (v : string) :
  valueToOSVersionString value = Return v ->
  exists major minor patch,
    v = format_version (major, minor, patch)
    /\ -9 <= major <= 99 /\ 0 <= minor <= 15 /\ 0 <= patch <= 15.
Proof.
  unfold valueToOSVersionString.
  destruct (version_str_of value) as [s|]; [|discriminate].
  rewrite parse_version_str_spec.
  destruct (spec_major s) as [major|] eqn:Hmajor; [|discriminate].
  destruct (spec_digit_at 2 s) as [minor|] eqn:Hminor; [|discriminate].
  destruct (spec_digit_at 3 s) as [patch|] eqn:Hpatch; [|discriminate].
  cbn. intros [= <-]. exists major, minor, patch.
  split; [reflexivity|].
  apply spec_major_bounds in Hmajor.
  apply spec_digit_at_bounds in Hminor, Hpatch. lia.
Qed.

Lemma valueToOSVersionString_bounds_witness :
  exists major minor patch,
    "10.5.8" = format_version (major, minor, patch)
    /\ -9 <= major <= 99 /\ 0 <= minor <= 15 /\ 0 <= patch <= 15.
Proof.
  apply (valueToOSVersionString_bounds (OSStr "0x1058") "10.5.8").
  reflexivity.
Defined.

(** *** The decoder on strings *)

Lemma decimal_digit_pair_value (a b : ascii) :
  Py.digit_value a < 10 -> Py.digit_value b < 10 ->
  Py.int 10 (String a (String b EmptyString))
  = Some (10 * Py.digit_value a + Py.digit_value b).
Proof.
  intros Ha Hb. rewrite int10_hex_digit_pair.
  - cbn [decimal_digits_value].
    destruct (Z.ltb_spec (Py.digit_value a) 10); [|lia].
    destruct (Z.ltb_spec (Py.digit_value b) 10); [|lia].
    f_equal. lia.
  - unfold hex_digit_value.
    destruct (Z.ltb_spec (Py.digit_value a) 16); [discriminate|lia].
  - unfold hex_digit_value.
    destruct (Z.ltb_spec (Py.digit_value b) 16); [discriminate|lia].
Qed.

(** X14.  A string "0x" followed by two decimal digits and two hexadecimal digits,
    of either case, decodes to the number the two decimal digits write, the
    value of the third digit and the value of the fourth; a leading zero is
    kept, and whatever follows the four digits is ignored. *)
Theorem valueToOSVersionString_four_digits (a b c d : ascii) (rest : string) :
  Py.digit_value a < 10 -> Py.digit_value b < 10 ->
  Py.digit_value c < 16 -> Py.digit_value d < 16 ->
  valueToOSVersionString
    (OSStr ("0x" +:+ String a (String b (String c (String d rest)))))
  = Return (format_version (10 * Py.digit_value a + Py.digit_value b,
                            Py.digit_value c, Py.digit_value d)).
Proof.
  intros Ha Hb Hc Hd.
  rewrite (valueToOSVersionString_normalized _ _ (version_str_of_prefixed _)).
  unfold spec_decode, spec_major, spec_digit_at, hex_digit_value.
  cbn [String.length substring String.get].
  rewrite ?substring_0_0, (decimal_digit_pair_value a b Ha Hb).
  destruct (Z.ltb_spec (Py.digit_value c) 16); [|lia].
  destruct (Z.ltb_spec (Py.digit_value d) 16); [|lia].
  reflexivity.
Qed.

Lemma valueToOSVersionString_four_digits_witness :
  valueToOSVersionString (OSStr ("0x" +:+ "095B"))
  = Return (format_version (10 * Py.digit_value "0" + Py.digit_value "9",
                            Py.digit_value "5", Py.digit_value "B")).
Proof.
  apply (valueToOSVersionString_four_digits "0" "9" "5" "B" EmptyString);
    vm_compute; reflexivity.
Defined.

(** ** Selection by version on the titles of the feed *)

Lemma contains_false (sub s a b : string) :
  Py.contains sub s = false -> s <> a +:+ sub +:+ b.
Proof.
  intros Hc ->. enough (Py.contains sub (a +:+ sub +:+ b) = true) by congruence.
  apply contains_spec. eauto.
Qed.

(** Where a separator character may stand, when what precedes the first
    one is known. *)
Lemma app_sep_inv (c : ascii) (p q x y : string) :
  (forall u v, p <> u +:+ String c v) ->
  x +:+ String c y = p +:+ String c q ->
  (x = p /\ y = q) \/ exists x', x = p +:+ String c x' /\ q = x' +:+ String c y.
Proof.
  revert x. induction p as [|d p IH]; intros x Hp Heq.
  - rewrite app_empty_l in Heq. destruct x as [|d x].
    + rewrite app_empty_l in Heq. injection Heq as <-. now left.
    + rewrite app_String in Heq. injection Heq as -> <-. right.
      exists x. now rewrite app_empty_l.
  - rewrite app_String in Heq. destruct x as [|d' x].
    + rewrite app_empty_l in Heq. injection Heq as -> _.
      exfalso. apply (Hp EmptyString p). now rewrite app_empty_l.
    + rewrite app_String in Heq. injection Heq as -> Heq.
      destruct (IH x) as [[-> ->]|(x' & -> & ->)]; [|exact Heq|now left|].
      * intros u v ->. apply (Hp (String d u) v). now rewrite app_String.
      * right. exists x'. now rewrite app_String.
Qed.

Lemma dotted_number_no_space (w u v : string) :
  is_dotted_number w = true -> w <> u +:+ String " " v.
Proof.
  revert w. induction u as [|c u IH]; intros w Hw Heq.
  - rewrite app_empty_l in Heq. subst w. discriminate Hw.
  - rewrite app_String in Heq. subst w. cbn [is_dotted_number] in Hw.
    apply andb_prop in Hw as [_ Hw]. now apply (IH _ Hw).
Qed.

(** In a title "Lync <w> Update" with [w] made of digits and dots, the only
    text that stands between two spaces is [w]. *)
Lemma padded_in_template (v w : string) :
  is_dotted_number w = true ->
  Py.contains (" " +:+ v +:+ " ") ("Lync " +:+ w +:+ " Update") = true ->
  v = w.
Proof.
  intros Hw (a & b & Heq)%contains_spec.
  assert (Hlync : forall u t, "Lync" <> u +:+ String " " t).
  { intros u t. apply (contains_false " " "Lync" u t). reflexivity. }
  assert (Hupdate : forall u t, "Update" <> u +:+ String " " t).
  { intros u t. apply (contains_false " " "Update" u t). reflexivity. }
  assert (Hw' : forall u t, w <> u +:+ String " " t)
    by (intros u t; now apply dotted_number_no_space).
  change ("Lync " +:+ w +:+ " Update")
    with ("Lync" +:+ String " " (w +:+ String " " "Update")) in Heq.
  change (a +:+ (" " +:+ v +:+ " ") +:+ b)
    with (a +:+ String " " ((v +:+ " ") +:+ b)) in Heq.
  rewrite app_assoc in Heq.
  change (" " +:+ b) with (String " " b) in Heq.
  symmetry in Heq.
  apply (app_sep_inv " " "Lync" _ a _ Hlync) in Heq
    as [[-> Heq]|(x' & -> & Heq)].
  - apply (app_sep_inv " " w "Update" v b Hw') in Heq
      as [[-> _]|(x'' & _ & Heq)]; [reflexivity|].
    now apply Hupdate in Heq.
  - symmetry in Heq.
    apply (app_sep_inv " " w "Update" x' _ Hw') in Heq
      as [[_ Heq]|(x'' & _ & Heq)].
    + symmetry in Heq. now apply Hupdate in Heq.
    + now apply Hupdate in Heq.
Qed.

Lemma template_contains_padded (v : string) :
  Py.contains (" " +:+ v +:+ " ") ("Lync " +:+ v +:+ " Update") = true.
Proof.
  apply contains_spec. exists "Lync", "Update". now rewrite !app_assoc.
Qed.

Lemma dotted_number_not_latest (v : string) :
  is_dotted_number v = true -> v <> "latest".
Proof. intros Hv ->. discriminate Hv. Qed.

(** X15.  Selecting a version and extracting the version of the result agree: when
    the selection by [v] returns an entry whose title is "Lync <w> Update"
    with [w] made of digits and dots, then [w] is [v], and [getVersion]
    gives [v] back. *)
Theorem select_item_then_getVersion
    (metadata : list Item) (v w : string) (item : Item) :
  v <> "latest" ->
  select_item metadata v = Return item ->
  Title item = "Lync " +:+ w +:+ " Update" ->
  is_dotted_number w = true ->
  w = v /\ getVersion item = v.
Proof.
  intros Hv Hsel Ht Hw. rewrite (select_item_version metadata v Hv) in Hsel.
  destruct (matched_items metadata v) as [|x [|y rest]] eqn:Hm;
    try discriminate Hsel.
  injection Hsel as ->.
  assert (Hin : In item (matched_items metadata v)) by (rewrite Hm; now left).
  unfold matched_items in Hin. apply filter_In in Hin as [_ Hc].
  rewrite Ht in Hc. apply padded_in_template in Hc; [|exact Hw]. subst v.
  split; [reflexivity|]. now apply getVersion_dotted_number.
Qed.

Lemma select_item_then_getVersion_witness :
  "14.4.3" = "14.4.3" /\ getVersion sample_1443 = "14.4.3".
Proof.
  apply (select_item_then_getVersion
           [sample_1442; sample_1443] "14.4.3" "14.4.3" sample_1443);
    [discriminate|reflexivity|reflexivity|reflexivity].
Defined.

(** X16.  In a feed whose titles are all "Lync <w> Update" with [w] made of digits
    and dots, selecting the version [v] returns the entry titled
    "Lync <v> Update" when there is exactly one entry with that title. *)
Theorem select_item_by_version_of_title
    (before after : list Item) (item : Item) (v : string) :
  is_dotted_number v = true ->
  Title item = "Lync " +:+ v +:+ " Update" ->
  (forall x, In x (before ++ after)%list ->
     Title x <> Title item
     /\ exists w, Title x = "Lync " +:+ w +:+ " Update"
                  /\ is_dotted_number w = true) ->
  select_item (before ++ item :: after)%list v = Return item.
Proof.
  intros Hv Ht Hothers.
  rewrite (select_item_version _ v (dotted_number_not_latest v Hv)).
  assert (Hnone : forall l,
            (forall x, In x l -> In x (before ++ after)%list) ->
            matched_items l v = []).
  { intros l Hl. apply filter_nil. intros x Hx.
    destruct (Hothers x (Hl x Hx)) as [Hne (w & Hw & Hd)].
    destruct (Py.contains _ (Title x)) eqn:Hc; [exfalso|reflexivity].
    rewrite Hw in Hc. apply padded_in_template in Hc; [|exact Hd].
    subst w. apply Hne. now rewrite Hw, Ht. }
  unfold matched_items in *. rewrite List.filter_app. cbn [List.filter].
  rewrite Ht, template_contains_padded.
  rewrite (Hnone before) by (intros x Hx; apply in_or_app; now left).
  rewrite (Hnone after) by (intros x Hx; apply in_or_app; now right).
  reflexivity.
Qed.

Lemma select_item_by_version_of_title_witness :
  select_item ([sample_1442] ++ sample_1443 :: [])%list "14.4.3"
  = Return sample_1443.
Proof.
  apply (select_item_by_version_of_title [sample_1442] [] sample_1443 "14.4.3");
    [reflexivity|reflexivity|].
  intros x [<-|[]]. split; [discriminate|].
  exists "14.4.2". split; reflexivity.
Defined.
